(** * pyvista.core.grid: rectilinear and uniform grids

    A shallow embedding of [pyvista/core/grid.py].  The module wraps two
    toolkit objects, [vtkRectilinearGrid] and [vtkImageData]; the wrapped
    objects are records here, the toolkit's setters are record updates, and
    the array library's functions used by the module are list functions.

    Numbers.  Where the module only stores, sorts, compares and counts
    (the rectilinear grid, the constructors, the setters), arrays hold
    exact integers ([Z]), as in the docstring examples of the module.
    Where it computes with the origin and the spacing of a uniform grid,
    which the toolkit holds as C doubles and the array library sums in
    binary64 (the [points] property and [cast_to_rectilinear_grid]), the
    code is embedded once more on binary64 numbers, in [Float64], and
    what is proved of that arithmetic is proved there. *)

From Stdlib Require Import ZArith List Lia Sorted String.
From Stdlib Require Floats.PrimFloat.
From stdpp Require Import gmap strings list.
Import ListNotations.

Local Open Scope Z_scope.

(** ** Errors

    An error is either raised by a [raise] statement of [grid.py] itself, or
    it surfaces from the interpreter, the array library or the toolkit. *)

Inductive OwnError : Type :=
| TypeError (msg : string).

Inductive ForeignError : Type :=
| NumpyValueError      (* negative dimensions, minimum of an empty array *)
| NumpyIndexError      (* too many indices, index out of bounds *)
| PyIndexError         (* tuple or list index out of range *)
| PyTypeError          (* object has no len, is not subscriptable *)
| VtkTypeError         (* argument cannot be converted to the C++ type *)
| VtkReaderError.      (* file cannot be read *)

Inductive PyError : Type :=
| Raised (e : OwnError)
| Surfaced (e : ForeignError).

Inductive Result (A : Type) : Type :=
| Ok (a : A)
| Err (e : PyError).
Arguments Ok {A} a.
Arguments Err {A} e.

#[global] Instance result_ret : MRet Result := fun A a => Ok a.

#[global] Instance result_bind : MBind Result := fun A B k r =>
  match r with
  | Ok a => k a
  | Err e => Err e
  end.

Definition raised_directly {A : Type} (r : Result A) : bool :=
  match r with Err (Raised _) => true | _ => false end.

(** ** The array library *)

Module np.

(** Arrays of the two shapes the module is used with: one axis, and
    N rows of three columns. *)
Inductive ndarray : Type :=
| Arr1 (v : list Z)
| ArrN3 (rows : list (Z * Z * Z)).

(** [a.ravel()]: the elements in row-major order. *)
Definition ravel (a : ndarray) : list Z :=
  match a with
  | Arr1 v => v
  | ArrN3 rows => flat_map (fun '(x, y, z) => [x; y; z]) rows
  end.

(** [len(a)]: the length of the first axis. *)
Definition len (a : ndarray) : nat :=
  match a with
  | Arr1 v => length v
  | ArrN3 rows => length rows
  end.

(** [a[:, c]]: a column of a two-axis array. *)
Definition column (c : nat) (a : ndarray) : Result (list Z) :=
  match a with
  | Arr1 _ => Err (Surfaced NumpyIndexError)
  | ArrN3 rows =>
      match c with
      | 0%nat => Ok (map (fun '(x, _, _) => x) rows)
      | 1%nat => Ok (map (fun '(_, y, _) => y) rows)
      | 2%nat => Ok (map (fun '(_, _, z) => z) rows)
      | _ => Err (Surfaced NumpyIndexError)
      end
  end.

Fixpoint insert_sorted (v : Z) (l : list Z) : list Z :=
  match l with
  | [] => [v]
  | h :: t => if v <=? h then v :: l else h :: insert_sorted v t
  end.

(** [np.sort]: the elements in ascending order. *)
Definition sort (a : list Z) : list Z := foldr insert_sorted [] a.

(** The mask [aux[1:] != aux[:-1]] of [np.unique]: an element of the
    sorted array is kept when it differs from the one before it. *)
Fixpoint keep_changes (prev : Z) (l : list Z) : list Z :=
  match l with
  | [] => []
  | h :: t => if h =? prev then keep_changes prev t
              else h :: keep_changes h t
  end.

(** [np.unique]: sort, then keep the first element of every run. *)
Definition unique (a : list Z) : list Z :=
  match sort a with
  | [] => []
  | h :: t => h :: keep_changes h t
  end.

(** [np.diff]: [a[1:] - a[:-1]]. *)
Fixpoint diff (a : list Z) : list Z :=
  match a with
  | x :: ((y :: _) as t) => (y - x) :: diff t
  | _ => []
  end.

Fixpoint cumsum_from (acc : Z) (a : list Z) : list Z :=
  match a with
  | [] => []
  | h :: t => (acc + h) :: cumsum_from (acc + h) t
  end.

(** [np.cumsum]: the running sums. *)
Definition cumsum (a : list Z) : list Z := cumsum_from 0 a.

(** [np.full(n, v)]: [n] copies of [v]; a negative [n] is refused. *)
Definition full (n : Z) (v : Z) : Result (list Z) :=
  if n <? 0 then Err (Surfaced NumpyValueError)
  else Ok (repeat v (Z.to_nat n)).

(** [np.insert(a, 0, v)]: [v] put in front. *)
Definition insert0 (a : list Z) (v : Z) : list Z := v :: a.

(** [a + c]: the scalar added to every element. *)
Definition add_scalar (a : list Z) (c : Z) : list Z := map (fun v => v + c) a.

(** [np.min]: refused on an empty array. *)
Definition min (a : list Z) : Result Z :=
  match a with
  | [] => Err (Surfaced NumpyValueError)
  | h :: t => Ok (foldl Z.min h t)
  end.

(** A three-axis array: its shape and its element at an index. *)
Record ndarray3 : Type := mk_ndarray3 {
  shape : nat * nat * nat;
  item : nat -> nat -> nat -> Z
}.

(** [np.meshgrid(x, y, z, indexing='ij')]: three arrays of shape
    [(len x, len y, len z)] with [xx[i,j,k] = x[i]], [yy[i,j,k] = y[j]],
    [zz[i,j,k] = z[k]]. *)
Definition meshgrid_ij (x y z : list Z) : ndarray3 * ndarray3 * ndarray3 :=
  let s := (length x, length y, length z) in
  (mk_ndarray3 s (fun i _ _ => nth i x 0),
   mk_ndarray3 s (fun _ j _ => nth j y 0),
   mk_ndarray3 s (fun _ _ k => nth k z 0)).

(** [a.ravel(order='F')]: the first index changes fastest. *)
Definition ravel_F (a : ndarray3) : list Z :=
  let '(n0, n1, n2) := shape a in
  flat_map (fun k =>
    flat_map (fun j =>
      map (fun i => item a i j k) (seq 0 n0)) (seq 0 n1)) (seq 0 n2).

(** [np.c_[a, b, c]]: the three arrays as the columns of one. *)
Fixpoint c_ (a b c : list Z) : list (Z * Z * Z) :=
  match a, b, c with
  | x :: a', y :: b', z :: c' => (x, y, z) :: c_ a' b' c'
  | _, _, _ => []
  end.

End np.

(** ** The wrapped toolkit objects *)

(** Modelled from the spec: the attribute data and the metadata that
    [DataSet] (dataset.py) attaches to a data set: point arrays, cell
    arrays and field arrays by name, and the metadata [copy_meta_from]
    copies. *)
Record Attached : Type := mk_Attached {
  point_arrays : gmap string (list Z);
  cell_arrays : gmap string (list Z);
  field_arrays : gmap string (list Z);
  meta : gmap string string
}.

Definition no_attached : Attached := mk_Attached ∅ ∅ ∅ ∅.

(** A toolkit data array holds what the array it was made from holds:
    [numpy_to_vtk] and [vtk_to_numpy] are inverse conversions. *)
Definition vtkDataArray : Type := np.ndarray.
Definition numpy_to_vtk (a : np.ndarray) : vtkDataArray := a.
Definition vtk_to_numpy (a : vtkDataArray) : np.ndarray := a.

Module vtkRectilinearGrid.

Record t : Type := mk {
  Dimensions : Z * Z * Z;
  XCoordinates : vtkDataArray;
  YCoordinates : vtkDataArray;
  ZCoordinates : vtkDataArray;
  attached : Attached
}.

(** A new object: no nodes, one coordinate 0 on each axis. *)
Definition new : t :=
  mk (0, 0, 0) (np.Arr1 [0]) (np.Arr1 [0]) (np.Arr1 [0]) no_attached.

Definition GetDimensions (g : t) : Z * Z * Z := Dimensions g.
Definition GetXCoordinates (g : t) : vtkDataArray := XCoordinates g.
Definition GetYCoordinates (g : t) : vtkDataArray := YCoordinates g.
Definition GetZCoordinates (g : t) : vtkDataArray := ZCoordinates g.

Definition SetDimensions (nx ny nz : Z) (g : t) : t :=
  mk (nx, ny, nz) (XCoordinates g) (YCoordinates g) (ZCoordinates g)
     (attached g).
Definition SetXCoordinates (a : vtkDataArray) (g : t) : t :=
  mk (Dimensions g) a (YCoordinates g) (ZCoordinates g) (attached g).
Definition SetYCoordinates (a : vtkDataArray) (g : t) : t :=
  mk (Dimensions g) (XCoordinates g) a (ZCoordinates g) (attached g).
Definition SetZCoordinates (a : vtkDataArray) (g : t) : t :=
  mk (Dimensions g) (XCoordinates g) (YCoordinates g) a (attached g).
Definition set_attached (d : Attached) (g : t) : t :=
  mk (Dimensions g) (XCoordinates g) (YCoordinates g) (ZCoordinates g) d.

End vtkRectilinearGrid.

Module vtkImageData.

Record t : Type := mk {
  Dimensions : Z * Z * Z;
  Origin : Z * Z * Z;
  Spacing : Z * Z * Z;
  attached : Attached
}.

(** A new object: no nodes, origin 0 and spacing 1 on each axis. *)
Definition new : t := mk (0, 0, 0) (0, 0, 0) (1, 1, 1) no_attached.

Definition GetDimensions (g : t) : Z * Z * Z := Dimensions g.
Definition GetOrigin (g : t) : Z * Z * Z := Origin g.
Definition GetSpacing (g : t) : Z * Z * Z := Spacing g.

Definition SetDimensions (nx ny nz : Z) (g : t) : t :=
  mk (nx, ny, nz) (Origin g) (Spacing g) (attached g).
Definition SetOrigin (ox oy oz : Z) (g : t) : t :=
  mk (Dimensions g) (ox, oy, oz) (Spacing g) (attached g).
Definition SetSpacing (dx dy dz : Z) (g : t) : t :=
  mk (Dimensions g) (Origin g) (dx, dy, dz) (attached g).

End vtkImageData.

(** ** Python values

    What a caller can pass to the constructors and the setters. *)

#[warnings="-register-all"] Inductive PyObj : Type :=
| PyNum (v : Z)
| PyStr (s : string)
| PyTuple (items : list PyObj)
| PyNdarray (a : np.ndarray)
| PyVtkRectilinearGrid (g : vtkRectilinearGrid.t)
| PyVtkImageData (g : vtkImageData.t)
| PyNone.

(** [isinstance(o, np.ndarray)] *)
Definition is_ndarray (o : PyObj) : bool :=
  match o with PyNdarray _ => true | _ => false end.

(** [len(o)] *)
Definition py_len (o : PyObj) : Result nat :=
  match o with
  | PyTuple items => Ok (length items)
  | PyNdarray a => Ok (np.len a)
  | PyStr s => Ok (String.length s)
  | _ => Err (Surfaced PyTypeError)
  end.

(** [o[i]] for a literal index [i >= 0] *)
Definition py_getitem (o : PyObj) (i : nat) : Result PyObj :=
  match o with
  | PyTuple items =>
      match items !! i with
      | Some v => Ok v
      | None => Err (Surfaced PyIndexError)
      end
  | PyNdarray (np.Arr1 v) =>
      match v !! i with
      | Some c => Ok (PyNum c)
      | None => Err (Surfaced NumpyIndexError)
      end
  | PyNdarray (np.ArrN3 rows) =>
      match rows !! i with
      | Some (x, y, z) => Ok (PyNdarray (np.Arr1 [x; y; z]))
      | None => Err (Surfaced NumpyIndexError)
      end
  | PyStr s =>
      match String.get i s with
      | Some c => Ok (PyStr (String c EmptyString))
      | None => Err (Surfaced PyIndexError)
      end
  | _ => Err (Surfaced PyTypeError)
  end.

(** The toolkit's conversion of an argument to a number: a number is
    taken as it is, an array of exactly one element gives that element,
    everything else is refused. *)
Definition vtk_number (o : PyObj) : Result Z :=
  match o with
  | PyNum v => Ok v
  | PyNdarray a =>
      match np.ravel a with
      | [v] => Ok v
      | _ => Err (Surfaced VtkTypeError)
      end
  | _ => Err (Surfaced VtkTypeError)
  end.

(** A method that changes [self]: the changes made before an error is
    raised stay. *)
Definition Method (S A : Type) : Type := S -> S * Result A.

#[global] Instance method_ret {S} : MRet (Method S) := fun A a s => (s, Ok a).

#[global] Instance method_bind {S} : MBind (Method S) := fun A B k m s =>
  match m s with
  | (s', Ok a) => k a s'
  | (s', Err e) => (s', Err e)
  end.

(** An operation that fails without a change, within a method. *)
Definition lift {S A : Type} (r : Result A) : Method S A := fun s => (s, r).

(** A change of [self] that cannot fail, within a method. *)
Definition modify {S : Type} (f : S -> S) : Method S unit :=
  fun s => (f s, Ok tt).

(** The classes of the module. *)
Inductive Class : Type := cls_Grid | cls_RectilinearGrid | cls_UniformGrid.

(** What the grid classes share through the toolkit. *)
Class VtkGrid (T : Type) : Type := {
  GetDimensions : T -> Z * Z * Z;
  SetDimensions : Z -> Z -> Z -> T -> T
}.

#[global] Instance rectilinear_VtkGrid : VtkGrid vtkRectilinearGrid.t :=
  {| GetDimensions := vtkRectilinearGrid.GetDimensions;
     SetDimensions := vtkRectilinearGrid.SetDimensions |}.

#[global] Instance image_VtkGrid : VtkGrid vtkImageData.t :=
  {| GetDimensions := vtkImageData.GetDimensions;
     SetDimensions := vtkImageData.SetDimensions |}.

(** A structured grid as the toolkit's image-to-structured-grid filter
    gives it: dimensions and explicit points. *)
Record StructuredGrid : Type := mk_StructuredGrid {
  sg_dimensions : Z * Z * Z;
  sg_points : list (Z * Z * Z);
  sg_attached : Attached
}.

(** The parts of the toolkit the module delegates to: the readers of
    [_vtk_readers] and the image-to-structured-grid filter.  Each gives
    its result or an error of its own. *)
Class Toolkit : Type := {
  vtkRectilinearGridReader : string -> ForeignError + vtkRectilinearGrid.t;
  vtkImageDataReader : string -> ForeignError + vtkImageData.t;
  vtkImageToStructuredGrid : vtkImageData.t -> ForeignError + StructuredGrid
}.

(** Modelled from the spec: [dict.update] on the attribute arrays of
    [DataSet] (dataset.py): every array of [src] is attached to the
    target under its name. *)
Definition arrays_update (src dst : gmap string (list Z))
  : gmap string (list Z) := src ∪ dst.

(** ** class Grid *)

Module Grid.

Definition __new__ (cls : Class) : Result unit :=
  match cls with
  | cls_Grid =>
      Err (Raised (TypeError
        "pyvista.Grid is an abstract class and may not be instantiated."))
  | _ => Ok tt
  end.

(** The [dimensions] property: a list of length three. *)
Definition dimensions {T} `{VtkGrid T} (self : T) : Z * Z * Z :=
  GetDimensions self.

(** The setter of the [dimensions] property. *)
Definition set_dimensions {T} `{VtkGrid T} (dims : PyObj) : Method T unit :=
  d0 ← lift (py_getitem dims 0);
  d1 ← lift (py_getitem dims 1);
  d2 ← lift (py_getitem dims 2);
  nx ← lift (vtk_number d0);
  ny ← lift (vtk_number d1);
  nz ← lift (vtk_number d2);
  modify (SetDimensions nx ny nz).

End Grid.

(** ** class RectilinearGrid *)

Module RectilinearGrid.

Import vtkRectilinearGrid.

(** Modelled from the spec: [DataSet.deep_copy] (dataset.py), which
    overwrites [self] with a copy of the given object. *)
Definition deep_copy (other : t) (self : t) : t := other.

(** Modelled from the spec: [DataSet._load_file] (dataset.py), which
    delegates to the reader for the file's format. *)
Definition _load_file `{Toolkit} (filename : string) : Method t unit :=
  fun self =>
    match vtkRectilinearGridReader filename with
    | inr g => (deep_copy g self, Ok tt)
    | inl e => (self, Err (Surfaced e))
    end.

(** Modelled from the spec: [DataSet.copy_meta_from] (dataset.py), which
    copies the metadata of the given data set. *)
Definition copy_meta_from (m : gmap string string) (self : t) : t :=
  let d := attached self in
  set_attached
    (mk_Attached (point_arrays d) (cell_arrays d) (field_arrays d) m) self.

(** [self.point_arrays.update(a)], [self.cell_arrays.update(a)] and
    [self.field_arrays.update(a)]. *)
Definition point_arrays_update (a : gmap string (list Z)) (self : t) : t :=
  let d := attached self in
  set_attached
    (mk_Attached (arrays_update a (point_arrays d)) (cell_arrays d)
                 (field_arrays d) (meta d)) self.

Definition cell_arrays_update (a : gmap string (list Z)) (self : t) : t :=
  let d := attached self in
  set_attached
    (mk_Attached (point_arrays d) (arrays_update a (cell_arrays d))
                 (field_arrays d) (meta d)) self.

Definition field_arrays_update (a : gmap string (list Z)) (self : t) : t :=
  let d := attached self in
  set_attached
    (mk_Attached (point_arrays d) (cell_arrays d)
                 (arrays_update a (field_arrays d)) (meta d)) self.

Definition _from_arrays (x y z : np.ndarray) (self : t) : t :=
  let x := np.unique (np.ravel x) in
  let y := np.unique (np.ravel y) in
  let z := np.unique (np.ravel z) in
  let self := SetDimensions (Z.of_nat (length x)) (Z.of_nat (length y))
                            (Z.of_nat (length z)) self in
  let self := SetXCoordinates (numpy_to_vtk (np.Arr1 x)) self in
  let self := SetYCoordinates (numpy_to_vtk (np.Arr1 y)) self in
  SetZCoordinates (numpy_to_vtk (np.Arr1 z)) self.

(** [RectilinearGrid(args...)]: the object after [__init__], or the
    error [__init__] ends with. *)
Definition __init__ `{Toolkit} (args : list PyObj) : Result t :=
  let self := new in
  if (length args =? 1)%nat then
    match nth 0 args PyNone with
    | PyVtkRectilinearGrid g => Ok (deep_copy g self)
    | PyStr s =>
        match _load_file s self with
        | (self, Ok _) => Ok self
        | (_, Err e) => Err e
        end
    | _ => Ok self
    end
  else if (length args =? 3)%nat || (length args =? 2)%nat then
    if forallb is_ndarray args then
      let args :=
        args ++ repeat (PyNdarray (np.Arr1 [0])) (3 - length args) in
      match args with
      | [PyNdarray x; PyNdarray y; PyNdarray z] =>
          Ok (_from_arrays x y z self)
      | _ => Ok self
      end
    else Ok self
  else Ok self.

(** The [points] property. [np.meshgrid] flattens its arguments. *)
Definition points (self : t) : np.ndarray :=
  let x := vtk_to_numpy (GetXCoordinates self) in
  let y := vtk_to_numpy (GetYCoordinates self) in
  let z := vtk_to_numpy (GetZCoordinates self) in
  let '(xx, yy, zz) :=
    np.meshgrid_ij (np.ravel x) (np.ravel y) (np.ravel z) in
  np.ArrN3 (np.c_ (np.ravel_F xx) (np.ravel_F yy) (np.ravel_F zz)).

(** The setter of the [points] property. *)
Definition set_points (points : PyObj) : Method t unit :=
  match points with
  | PyNdarray points =>
      x ← lift (np.column 0 points);
      y ← lift (np.column 1 points);
      z ← lift (np.column 2 points);
      modify (_from_arrays (np.Arr1 (np.unique x)) (np.Arr1 (np.unique y))
                           (np.Arr1 (np.unique z)))
  | _ => lift (Err (Raised (TypeError "Points must be a numpy array")))
  end.

(** The [x], [y] and [z] properties and their setters. *)
Definition x (self : t) : np.ndarray := vtk_to_numpy (GetXCoordinates self).
Definition set_x (coords : np.ndarray) : Method t unit :=
  modify (SetXCoordinates (numpy_to_vtk coords)).

Definition y (self : t) : np.ndarray := vtk_to_numpy (GetYCoordinates self).
Definition set_y (coords : np.ndarray) : Method t unit :=
  modify (SetYCoordinates (numpy_to_vtk coords)).

Definition z (self : t) : np.ndarray := vtk_to_numpy (GetZCoordinates self).
Definition set_z (coords : np.ndarray) : Method t unit :=
  modify (SetZCoordinates (numpy_to_vtk coords)).

End RectilinearGrid.

(** ** class UniformGrid *)

Module UniformGrid.

Import vtkImageData.

(** Modelled from the spec: [DataSet.deep_copy] (dataset.py), which
    overwrites [self] with a copy of the given object. *)
Definition deep_copy (other : t) (self : t) : t := other.

(** Modelled from the spec: [DataSet._load_file] (dataset.py), which
    delegates to the reader for the file's format. *)
Definition _load_file `{Toolkit} (filename : string) : Method t unit :=
  fun self =>
    match vtkImageDataReader filename with
    | inr g => (deep_copy g self, Ok tt)
    | inl e => (self, Err (Surfaced e))
    end.

(** The default values of [spacing] and [origin] in [_from_specs]. *)
Definition default_spacing : PyObj := PyTuple [PyNum 1; PyNum 1; PyNum 1].
Definition default_origin : PyObj := PyTuple [PyNum 0; PyNum 0; PyNum 0].

Definition _from_specs (dims spacing origin : PyObj) : Method t unit :=
  xn ← lift (py_getitem dims 0);
  yn ← lift (py_getitem dims 1);
  zn ← lift (py_getitem dims 2);
  xs ← lift (py_getitem spacing 0);
  ys ← lift (py_getitem spacing 1);
  zs ← lift (py_getitem spacing 2);
  xo ← lift (py_getitem origin 0);
  yo ← lift (py_getitem origin 1);
  zo ← lift (py_getitem origin 2);
  nx ← lift (vtk_number xn);
  ny ← lift (vtk_number yn);
  nz ← lift (vtk_number zn);
  _ ← modify (SetDimensions nx ny nz);
  ox ← lift (vtk_number xo);
  oy ← lift (vtk_number yo);
  oz ← lift (vtk_number zo);
  _ ← modify (SetOrigin ox oy oz);
  dx ← lift (vtk_number xs);
  dy ← lift (vtk_number ys);
  dz ← lift (vtk_number zs);
  modify (SetSpacing dx dy dz).

(** The object a constructor gives: the one [__init__] ends with, unless
    [__init__] raises. *)
Definition constructed {A : Type} (r : t * Result A) : Result t :=
  match r with
  | (self, Ok _) => Ok self
  | (_, Err e) => Err e
  end.

(** [UniformGrid(args...)]: the object after [__init__], or the error
    [__init__] ends with. *)
Definition __init__ `{Toolkit} (args : list PyObj) : Result t :=
  let self := new in
  let arg i := nth i args PyNone in
  if (length args =? 1)%nat then
    match arg 0%nat with
    | PyVtkImageData g => Ok (deep_copy g self)
    | PyStr s => constructed (_load_file s self)
    | a => constructed (_from_specs a default_spacing default_origin self)
    end
  else if (1 <? length args)%nat && (length args <? 4)%nat then
    l0 ← py_len (arg 0%nat);
    let arg0_is_valid := (l0 =? 3)%nat in
    arg1_is_valid ←
      (if (1 <? length args)%nat
       then l1 ← py_len (arg 1%nat); mret (l1 =? 3)%nat
       else mret false);
    arg2_is_valid ←
      (if (2 <? length args)%nat
       then l2 ← py_len (arg 2%nat); mret (l2 =? 3)%nat
       else mret false);
    if forallb id [arg0_is_valid; arg1_is_valid; arg2_is_valid] then
      constructed (_from_specs (arg 0%nat) (arg 1%nat) (arg 2%nat) self)
    else if forallb id [arg0_is_valid; arg1_is_valid] then
      constructed (_from_specs (arg 0%nat) (arg 1%nat) default_origin self)
    else Ok self
  else Ok self.

(** The [origin] and [spacing] properties: lists of length three. *)
Definition origin (self : t) : Z * Z * Z := GetOrigin self.
Definition spacing (self : t) : Z * Z * Z := GetSpacing self.

(** The setters of the [origin] and [spacing] properties. *)
Definition set_origin (origin : PyObj) : Method t unit :=
  o0 ← lift (py_getitem origin 0);
  o1 ← lift (py_getitem origin 1);
  o2 ← lift (py_getitem origin 2);
  ox ← lift (vtk_number o0);
  oy ← lift (vtk_number o1);
  oz ← lift (vtk_number o2);
  modify (SetOrigin ox oy oz).

Definition set_spacing (spacing : PyObj) : Method t unit :=
  s0 ← lift (py_getitem spacing 0);
  s1 ← lift (py_getitem spacing 1);
  s2 ← lift (py_getitem spacing 2);
  dx ← lift (vtk_number s0);
  dy ← lift (vtk_number s1);
  dz ← lift (vtk_number s2);
  modify (SetSpacing dx dy dz).

(** The [points] property. *)
Definition points (self : t) : Result np.ndarray :=
  let '(nx, ny, nz) := Grid.dimensions self in
  let nx := nx - 1 in
  let ny := ny - 1 in
  let nz := nz - 1 in
  let '(dx, dy, dz) := spacing self in
  let '(ox, oy, oz) := origin self in
  fx ← np.full nx dx;
  let x := np.add_scalar (np.insert0 (np.cumsum fx) 0) ox in
  fy ← np.full ny dy;
  let y := np.add_scalar (np.insert0 (np.cumsum fy) 0) oy in
  fz ← np.full nz dz;
  let z := np.add_scalar (np.insert0 (np.cumsum fz) 0) oz in
  let '(xx, yy, zz) := np.meshgrid_ij x y z in
  mret (np.ArrN3 (np.c_ (np.ravel_F xx) (np.ravel_F yy) (np.ravel_F zz))).

(** The setter of the [points] property. *)
Definition set_points (points : PyObj) : Method t unit :=
  match points with
  | PyNdarray points =>
      cx ← lift (np.column 0 points);
      cy ← lift (np.column 1 points);
      cz ← lift (np.column 2 points);
      let x := np.unique cx in
      let y := np.unique cy in
      let z := np.unique cz in
      let nx := Z.of_nat (length x) in
      let ny := Z.of_nat (length y) in
      let nz := Z.of_nat (length z) in
      let dx := np.unique (np.diff x) in
      let dy := np.unique (np.diff y) in
      let dz := np.unique (np.diff z) in
      ox ← lift (np.min x);
      oy ← lift (np.min y);
      oz ← lift (np.min z);
      _from_specs
        (PyTuple [PyNum nx; PyNum ny; PyNum nz])
        (PyTuple [PyNdarray (np.Arr1 dx); PyNdarray (np.Arr1 dy);
                  PyNdarray (np.Arr1 dz)])
        (PyTuple [PyNum ox; PyNum oy; PyNum oz])
  | _ => lift (Err (Raised (TypeError "Points must be a numpy array")))
  end.

(** The [x], [y] and [z] properties: the columns of [points]. *)
Definition x (self : t) : Result (list Z) :=
  p ← points self; np.column 0 p.
Definition y (self : t) : Result (list Z) :=
  p ← points self; np.column 1 p.
Definition z (self : t) : Result (list Z) :=
  p ← points self; np.column 2 p.

(** [cast_to_structured_grid]: the toolkit's filter applied to [self]. *)
Definition cast_to_structured_grid `{Toolkit} (self : t)
  : Result StructuredGrid :=
  match vtkImageToStructuredGrid self with
  | inr g => Ok g
  | inl e => Err (Surfaced e)
  end.

(** An item of a list of length three. *)
Definition item3 (v : Z * Z * Z) (i : nat) : Z :=
  let '(a, b, c) := v in
  match i with 0%nat => a | 1%nat => b | _ => c end.

(** The local function [gen_coords] of [cast_to_rectilinear_grid]. *)
Definition gen_coords (self : t) (i : nat) : Result (list Z) :=
  f ← np.full (item3 (Grid.dimensions self) i - 1) (item3 (spacing self) i);
  mret (np.add_scalar (np.cumsum (np.insert0 f 0)) (item3 (origin self) i)).

(** [cast_to_rectilinear_grid]: [self] after the call, and the new grid
    or the error the call ends with. *)
Definition cast_to_rectilinear_grid `{Toolkit}
  : Method t vtkRectilinearGrid.t :=
  fun self =>
    (self,
     xcoords ← gen_coords self 0;
     ycoords ← gen_coords self 1;
     zcoords ← gen_coords self 2;
     grid ← RectilinearGrid.__init__
       [PyNdarray (np.Arr1 xcoords); PyNdarray (np.Arr1 ycoords);
        PyNdarray (np.Arr1 zcoords)];
     let grid :=
       RectilinearGrid.point_arrays_update (point_arrays (attached self))
                                           grid in
     let grid :=
       RectilinearGrid.cell_arrays_update (cell_arrays (attached self))
                                          grid in
     let grid :=
       RectilinearGrid.field_arrays_update (field_arrays (attached self))
                                           grid in
     let grid := RectilinearGrid.copy_meta_from (meta (attached self)) grid in
     mret grid).

End UniformGrid.

(** A toolkit without files: the readers and the filter refuse. *)
Definition no_files : Toolkit :=
  {| vtkRectilinearGridReader := fun _ => inl VtkReaderError;
     vtkImageDataReader := fun _ => inl VtkReaderError;
     vtkImageToStructuredGrid := fun _ => inl VtkTypeError |}.

(** ** The arithmetic of the uniform grid on binary64 numbers

    The toolkit holds the origin and the spacing of an image as C doubles
    and the array library sums in binary64.  The code that computes with
    them, the [points] property of [UniformGrid] and
    [cast_to_rectilinear_grid], is embedded here once more on the
    kernel's binary64 numbers, with their rounding; the dimensions stay
    integers. *)

Module Float64.

Import PrimFloat.
Local Open Scope float_scope.

Module np.

(** [np.full(n, v)]: [n] copies of [v]; a negative [n] is refused. *)
Definition full (n : Z) (v : float) : Result (list float) :=
  if (n <? 0)%Z then Err (Surfaced NumpyValueError)
  else Ok (repeat v (Z.to_nat n)).

Fixpoint cumsum_from (acc : float) (a : list float) : list float :=
  match a with
  | [] => []
  | h :: t => (acc + h) :: cumsum_from (acc + h) t
  end.

(** [np.cumsum]: the first element, then every element added to the sum
    before it, each sum rounded to binary64. *)
Definition cumsum (a : list float) : list float :=
  match a with
  | [] => []
  | h :: t => h :: cumsum_from h t
  end.

(** [np.insert(a, 0, v)]: [v] put in front. *)
Definition insert0 (a : list float) (v : float) : list float := v :: a.

(** [a + c]: the scalar added to every element. *)
Definition add_scalar (a : list float) (c : float) : list float :=
  map (fun v => v + c) a.

(** The order of [np.sort]: the numbers ascending, [nan] last. *)
Definition sorts_before (a b : float) : bool := (a <=? b) || is_nan b.

Fixpoint insert_sorted (v : float) (l : list float) : list float :=
  match l with
  | [] => [v]
  | h :: t => if sorts_before v h then v :: l else h :: insert_sorted v t
  end.

(** [np.sort] *)
Definition sort (a : list float) : list float := foldr insert_sorted [] a.

(** The mask [aux[1:] != aux[:-1]] of [np.unique]; a [nan] differs from
    every number and from itself, so it is kept. *)
Fixpoint keep_changes (prev : float) (l : list float) : list float :=
  match l with
  | [] => []
  | h :: t => if h =? prev then keep_changes prev t
              else h :: keep_changes h t
  end.

(** [np.unique]: sort, then keep the first element of every run. *)
Definition unique (a : list float) : list float :=
  match sort a with
  | [] => []
  | h :: t => h :: keep_changes h t
  end.

(** A three-axis array: its shape and its element at an index. *)
Record ndarray3 : Type := mk_ndarray3 {
  shape : nat * nat * nat;
  item : nat -> nat -> nat -> float
}.

(** [np.meshgrid(x, y, z, indexing='ij')] *)
Definition meshgrid_ij (x y z : list float)
  : ndarray3 * ndarray3 * ndarray3 :=
  let s := (length x, length y, length z) in
  (mk_ndarray3 s (fun i _ _ => nth i x 0),
   mk_ndarray3 s (fun _ j _ => nth j y 0),
   mk_ndarray3 s (fun _ _ k => nth k z 0)).

(** [a.ravel(order='F')]: the first index changes fastest. *)
Definition ravel_F (a : ndarray3) : list float :=
  let '(n0, n1, n2) := shape a in
  flat_map (fun k =>
    flat_map (fun j =>
      map (fun i => item a i j k) (seq 0 n0)) (seq 0 n1)) (seq 0 n2).

(** [np.c_[a, b, c]]: the three arrays as the columns of one. *)
Fixpoint c_ (a b c : list float) : list (float * float * float) :=
  match a, b, c with
  | x :: a', y :: b', z :: c' => (x, y, z) :: c_ a' b' c'
  | _, _, _ => []
  end.

(** [a[:, 0]], [a[:, 1]] and [a[:, 2]] of an array of three columns. *)
Definition column0 (rows : list (float * float * float)) : list float :=
  map (fun '(x, _, _) => x) rows.
Definition column1 (rows : list (float * float * float)) : list float :=
  map (fun '(_, y, _) => y) rows.
Definition column2 (rows : list (float * float * float)) : list float :=
  map (fun '(_, _, z) => z) rows.

End np.

Module vtkImageData.

Record t : Type := mk {
  Dimensions : Z * Z * Z;
  Origin : float * float * float;
  Spacing : float * float * float;
  attached : Attached
}.

(** A new object: no nodes, origin 0 and spacing 1 on each axis. *)
Definition new : t := mk (0, 0, 0)%Z (0, 0, 0) (1, 1, 1) no_attached.

Definition GetDimensions (g : t) : Z * Z * Z := Dimensions g.
Definition GetOrigin (g : t) : float * float * float := Origin g.
Definition GetSpacing (g : t) : float * float * float := Spacing g.

End vtkImageData.

Module vtkRectilinearGrid.

Record t : Type := mk {
  Dimensions : Z * Z * Z;
  XCoordinates : list float;
  YCoordinates : list float;
  ZCoordinates : list float;
  attached : Attached
}.

(** A new object: no nodes, one coordinate 0 on each axis. *)
Definition new : t := mk (0, 0, 0)%Z [0] [0] [0] no_attached.

Definition GetXCoordinates (g : t) : list float := XCoordinates g.
Definition GetYCoordinates (g : t) : list float := YCoordinates g.
Definition GetZCoordinates (g : t) : list float := ZCoordinates g.

Definition SetDimensions (nx ny nz : Z) (g : t) : t :=
  mk (nx, ny, nz) (XCoordinates g) (YCoordinates g) (ZCoordinates g)
     (attached g).
Definition SetXCoordinates (a : list float) (g : t) : t :=
  mk (Dimensions g) a (YCoordinates g) (ZCoordinates g) (attached g).
Definition SetYCoordinates (a : list float) (g : t) : t :=
  mk (Dimensions g) (XCoordinates g) a (ZCoordinates g) (attached g).
Definition SetZCoordinates (a : list float) (g : t) : t :=
  mk (Dimensions g) (XCoordinates g) (YCoordinates g) a (attached g).
Definition set_attached (d : Attached) (g : t) : t :=
  mk (Dimensions g) (XCoordinates g) (YCoordinates g) (ZCoordinates g) d.

End vtkRectilinearGrid.

Module RectilinearGrid.

Import vtkRectilinearGrid.

(** Modelled from the spec: [DataSet.copy_meta_from] (dataset.py), which
    copies the metadata of the given data set. *)
Definition copy_meta_from (m : gmap string string) (self : t) : t :=
  let d := attached self in
  set_attached
    (mk_Attached (point_arrays d) (cell_arrays d) (field_arrays d) m) self.

(** [self.point_arrays.update(a)], [self.cell_arrays.update(a)] and
    [self.field_arrays.update(a)]. *)
Definition point_arrays_update (a : gmap string (list Z)) (self : t) : t :=
  let d := attached self in
  set_attached
    (mk_Attached (arrays_update a (point_arrays d)) (cell_arrays d)
                 (field_arrays d) (meta d)) self.

Definition cell_arrays_update (a : gmap string (list Z)) (self : t) : t :=
  let d := attached self in
  set_attached
    (mk_Attached (point_arrays d) (arrays_update a (cell_arrays d))
                 (field_arrays d) (meta d)) self.

Definition field_arrays_update (a : gmap string (list Z)) (self : t) : t :=
  let d := attached self in
  set_attached
    (mk_Attached (point_arrays d) (cell_arrays d)
                 (arrays_update a (field_arrays d)) (meta d)) self.

(** [_from_arrays] on three arrays of one axis, which [ravel] leaves as
    they are. *)
Definition _from_arrays (x y z : list float) (self : t) : t :=
  let x := np.unique x in
  let y := np.unique y in
  let z := np.unique z in
  let self := SetDimensions (Z.of_nat (length x)) (Z.of_nat (length y))
                            (Z.of_nat (length z)) self in
  let self := SetXCoordinates x self in
  let self := SetYCoordinates y self in
  SetZCoordinates z self.

(** [RectilinearGrid(x, y, z)] for three arrays: [__init__] finds three
    arguments that are all arrays and calls [_from_arrays]. *)
Definition __init__ (x y z : list float) : t := _from_arrays x y z new.

(** The [x], [y] and [z] properties. *)
Definition x (self : t) : list float := GetXCoordinates self.
Definition y (self : t) : list float := GetYCoordinates self.
Definition z (self : t) : list float := GetZCoordinates self.

End RectilinearGrid.

Module UniformGrid.

Import vtkImageData.

(** The [dimensions], [origin] and [spacing] properties. *)
Definition dimensions (self : t) : Z * Z * Z := GetDimensions self.
Definition origin (self : t) : float * float * float := GetOrigin self.
Definition spacing (self : t) : float * float * float := GetSpacing self.

(** The [points] property. *)
Definition points (self : t) : Result (list (float * float * float)) :=
  let '(nx, ny, nz) := dimensions self in
  let nx := (nx - 1)%Z in
  let ny := (ny - 1)%Z in
  let nz := (nz - 1)%Z in
  let '(dx, dy, dz) := spacing self in
  let '(ox, oy, oz) := origin self in
  fx ← np.full nx dx;
  let x := np.add_scalar (np.insert0 (np.cumsum fx) 0) ox in
  fy ← np.full ny dy;
  let y := np.add_scalar (np.insert0 (np.cumsum fy) 0) oy in
  fz ← np.full nz dz;
  let z := np.add_scalar (np.insert0 (np.cumsum fz) 0) oz in
  let '(xx, yy, zz) := np.meshgrid_ij x y z in
  mret (np.c_ (np.ravel_F xx) (np.ravel_F yy) (np.ravel_F zz)).

(** The [x], [y] and [z] properties: the columns of [points]. *)
Definition x (self : t) : Result (list float) :=
  p ← points self; mret (np.column0 p).
Definition y (self : t) : Result (list float) :=
  p ← points self; mret (np.column1 p).
Definition z (self : t) : Result (list float) :=
  p ← points self; mret (np.column2 p).

(** An item of a list of length three. *)
Definition item3 {A : Type} (v : A * A * A) (i : nat) : A :=
  let '(a, b, c) := v in
  match i with 0%nat => a | 1%nat => b | _ => c end.

(** The local function [gen_coords] of [cast_to_rectilinear_grid]. *)
Definition gen_coords (self : t) (i : nat) : Result (list float) :=
  f ← np.full (item3 (dimensions self) i - 1)%Z (item3 (spacing self) i);
  mret (np.add_scalar (np.cumsum (np.insert0 f 0)) (item3 (origin self) i)).

(** [cast_to_rectilinear_grid]: [self] after the call, and the new grid
    or the error the call ends with. *)
Definition cast_to_rectilinear_grid : Method t vtkRectilinearGrid.t :=
  fun self =>
    (self,
     xcoords ← gen_coords self 0;
     ycoords ← gen_coords self 1;
     zcoords ← gen_coords self 2;
     let grid := RectilinearGrid.__init__ xcoords ycoords zcoords in
     let grid :=
       RectilinearGrid.point_arrays_update (point_arrays (attached self))
                                           grid in
     let grid :=
       RectilinearGrid.cell_arrays_update (cell_arrays (attached self))
                                          grid in
     let grid :=
       RectilinearGrid.field_arrays_update (field_arrays (attached self))
                                           grid in
     let grid := RectilinearGrid.copy_meta_from (meta (attached self)) grid in
     mret grid).

End UniformGrid.

(** The sum [s + d + ... + d] of [n] additions from the left, each
    rounded to binary64. *)
Fixpoint sum_from (s d : float) (n : nat) : float :=
  match n with
  | O => s
  | S n' => sum_from (s + d) d n'
  end.

(** The running sum that [points] puts at the place [n] of an axis: [0],
    [d], [d + d], [(d + d) + d], ... *)
Definition running_sum (d : float) (n : nat) : float :=
  match n with
  | O => 0
  | S n' => sum_from d d n'
  end.

(** The [n] coordinates that [gen_coords] samples: the origin added to
    the running sums [0], [0 + d], [(0 + d) + d], ... *)
Definition sampled_coordinates (o d : float) (n : nat) : list float :=
  map (fun i => sum_from 0 d i + o) (seq 0 n).

(** The nodes of a grid with axes [x], [y] and [z], the first axis
    changing fastest. *)
Definition grid_nodes (x y z : list float) : list (float * float * float) :=
  flat_map (fun zk =>
    flat_map (fun yj => map (fun xi => (xi, yj, zk)) x) y) z.

End Float64.

(** ** The calls of the module

    Every operation of [grid.py] that has code of its own, with the
    arguments of a call. *)

Inductive Call : Type :=
| Grid_new (cls : Class)
| RG_init (args : list PyObj)
| RG_dimensions (self : vtkRectilinearGrid.t)
| RG_set_dimensions (self : vtkRectilinearGrid.t) (dims : PyObj)
| RG_from_arrays (self : vtkRectilinearGrid.t) (x y z : np.ndarray)
| RG_points (self : vtkRectilinearGrid.t)
| RG_set_points (self : vtkRectilinearGrid.t) (points : PyObj)
| RG_x (self : vtkRectilinearGrid.t)
| RG_set_x (self : vtkRectilinearGrid.t) (coords : np.ndarray)
| RG_y (self : vtkRectilinearGrid.t)
| RG_set_y (self : vtkRectilinearGrid.t) (coords : np.ndarray)
| RG_z (self : vtkRectilinearGrid.t)
| RG_set_z (self : vtkRectilinearGrid.t) (coords : np.ndarray)
| UG_init (args : list PyObj)
| UG_dimensions (self : vtkImageData.t)
| UG_set_dimensions (self : vtkImageData.t) (dims : PyObj)
| UG_from_specs (self : vtkImageData.t) (dims spacing origin : PyObj)
| UG_points (self : vtkImageData.t)
| UG_set_points (self : vtkImageData.t) (points : PyObj)
| UG_x (self : vtkImageData.t)
| UG_y (self : vtkImageData.t)
| UG_z (self : vtkImageData.t)
| UG_origin (self : vtkImageData.t)
| UG_set_origin (self : vtkImageData.t) (origin : PyObj)
| UG_spacing (self : vtkImageData.t)
| UG_set_spacing (self : vtkImageData.t) (spacing : PyObj)
| UG_cast_to_structured_grid (self : vtkImageData.t)
| UG_cast_to_rectilinear_grid (self : vtkImageData.t).

Definition error_of {A : Type} (r : Result A) : option PyError :=
  match r with
  | Ok _ => None
  | Err e => Some e
  end.

(** The error a call ends with, if it ends with one. *)
Definition run `{Toolkit} (c : Call) : option PyError :=
  match c with
  | Grid_new cls => error_of (Grid.__new__ cls)
  | RG_init args => error_of (RectilinearGrid.__init__ args)
  | RG_dimensions self => error_of (Ok (Grid.dimensions self))
  | RG_set_dimensions self dims => error_of (Grid.set_dimensions dims self).2
  | RG_from_arrays self x y z =>
      error_of (Ok (RectilinearGrid._from_arrays x y z self))
  | RG_points self => error_of (Ok (RectilinearGrid.points self))
  | RG_set_points self p => error_of (RectilinearGrid.set_points p self).2
  | RG_x self => error_of (Ok (RectilinearGrid.x self))
  | RG_set_x self c => error_of (RectilinearGrid.set_x c self).2
  | RG_y self => error_of (Ok (RectilinearGrid.y self))
  | RG_set_y self c => error_of (RectilinearGrid.set_y c self).2
  | RG_z self => error_of (Ok (RectilinearGrid.z self))
  | RG_set_z self c => error_of (RectilinearGrid.set_z c self).2
  | UG_init args => error_of (UniformGrid.__init__ args)
  | UG_dimensions self => error_of (Ok (Grid.dimensions self))
  | UG_set_dimensions self dims => error_of (Grid.set_dimensions dims self).2
  | UG_from_specs self dims spacing origin =>
      error_of (UniformGrid._from_specs dims spacing origin self).2
  | UG_points self => error_of (UniformGrid.points self)
  | UG_set_points self p => error_of (UniformGrid.set_points p self).2
  | UG_x self => error_of (UniformGrid.x self)
  | UG_y self => error_of (UniformGrid.y self)
  | UG_z self => error_of (UniformGrid.z self)
  | UG_origin self => error_of (Ok (UniformGrid.origin self))
  | UG_set_origin self o => error_of (UniformGrid.set_origin o self).2
  | UG_spacing self => error_of (Ok (UniformGrid.spacing self))
  | UG_set_spacing self sp => error_of (UniformGrid.set_spacing sp self).2
  | UG_cast_to_structured_grid self =>
      error_of (UniformGrid.cast_to_structured_grid self)
  | UG_cast_to_rectilinear_grid self =>
      error_of (UniformGrid.cast_to_rectilinear_grid self).2
  end.

(** A call of a [points] setter with an argument that is not an array. *)
Definition points_setter_rejecting (c : Call) : bool :=
  match c with
  | RG_set_points _ p | UG_set_points _ p => negb (is_ndarray p)
  | _ => false
  end.

(** A result that is not an error raised by the module itself: a value,
    or an error that surfaces from the interpreter, the array library or
    the toolkit. *)
Definition surfaces {A : Type} (r : Result A) : Prop :=
  raised_directly r = false.

Definition method_surfaces {S A : Type} (m : Method S A) : Prop :=
  forall s, surfaces (m s).2.

(** ** The words of the claims *)

(** [u] is the unique, sorted version of [a]: strictly increasing, with
    the elements of [a] and no others. *)
Definition unique_sorted_version (u a : list Z) : Prop :=
  StronglySorted Z.lt u /\ forall v, In v u <-> In v a.

(** The stored axis coordinates are strictly increasing. *)
Definition axes_strictly_increasing (g : vtkRectilinearGrid.t) : Prop :=
  StronglySorted Z.lt (np.ravel (vtkRectilinearGrid.XCoordinates g)) /\
  StronglySorted Z.lt (np.ravel (vtkRectilinearGrid.YCoordinates g)) /\
  StronglySorted Z.lt (np.ravel (vtkRectilinearGrid.ZCoordinates g)).

(** [pts] is the Cartesian product of the values of [xs], [ys] and [zs],
    every point once. *)
Definition cartesian_product_of (pts : list (Z * Z * Z)) (xs ys zs : list Z)
  : Prop :=
  NoDup pts /\
  forall a b c, In (a, b, c) pts <-> In a xs /\ In b ys /\ In c zs.

(** The nodes of a grid with axes [x], [y] and [z], in the order of the
    toolkit: the first axis changes fastest. *)
Definition grid_nodes (x y z : list Z) : list (Z * Z * Z) :=
  flat_map (fun zk =>
    flat_map (fun yj => map (fun xi => (xi, yj, zk)) x) y) z.

(** The [n] coordinates [o], [o + d], ..., [o + (n - 1) d]. *)
Definition sampled_axis (o d : Z) (n : nat) : list Z :=
  map (fun i => o + Z.of_nat i * d) (seq 0 n).

(** [m] is the minimum of [a]. *)
Definition minimum_of (m : Z) (a : list Z) : Prop :=
  In m a /\ forall v, In v a -> m <= v.

(** The number of distinct values of [a]. *)
Definition count_distinct (a : list Z) : Z :=
  Z.of_nat (size (list_to_set a : gset Z)).

(** The columns of an array of points. *)
Definition col0 (rows : list (Z * Z * Z)) : list Z :=
  map (fun '(a, _, _) => a) rows.
Definition col1 (rows : list (Z * Z * Z)) : list Z :=
  map (fun '(_, b, _) => b) rows.
Definition col2 (rows : list (Z * Z * Z)) : list Z :=
  map (fun '(_, _, c) => c) rows.

(** * Properties *)

(** ** The array library: sorting and [unique] *)

Section Unique.

Lemma insert_sorted_In (v a : Z) (l : list Z) :
  In v (np.insert_sorted a l) <-> v = a \/ In v l.
Proof.
  induction l as [|h t IH]; simpl.
  - intuition.
  - destruct (a <=? h); simpl; rewrite ?IH; intuition.
Qed.

Lemma sort_In (v : Z) (l : list Z) : In v (np.sort l) <-> In v l.
Proof.
  induction l as [|h t IH]; simpl; [tauto|].
  rewrite insert_sorted_In, IH. intuition.
Qed.

Lemma insert_sorted_sorted (a : Z) (l : list Z) :
  StronglySorted Z.le l -> StronglySorted Z.le (np.insert_sorted a l).
Proof.
  induction 1 as [|h t Hs IH Hall]; simpl.
  - repeat constructor.
  - destruct (Z.leb_spec a h).
    + constructor; [by constructor|].
      constructor; [done|].
      eapply Forall_impl; [exact Hall|]. intros; simpl in *; lia.
    + constructor; [exact IH|].
      apply Forall_forall. intros v Hv.
      apply list_elem_of_In, insert_sorted_In in Hv.
      destruct Hv as [->|Hv]; [lia|].
      rewrite Forall_forall in Hall. apply Hall. by apply list_elem_of_In.
Qed.

Lemma sort_sorted (l : list Z) : StronglySorted Z.le (np.sort l).
Proof.
  induction l; simpl; [constructor | by apply insert_sorted_sorted].
Qed.

Lemma keep_changes_spec (t : list Z) : forall h,
  StronglySorted Z.le (h :: t) ->
  StronglySorted Z.lt (h :: np.keep_changes h t) /\
  (forall v, In v (h :: np.keep_changes h t) <-> In v (h :: t)).
Proof.
  induction t as [|a t IH]; intros h Hs; cbn [np.keep_changes].
  - split; [repeat constructor | tauto].
  - apply StronglySorted_inv in Hs as [Hs Hall].
    pose proof (Forall_inv Hall) as Hha.
    destruct (Z.eqb_spec a h) as [->|Hne].
    + destruct (IH h Hs) as [IH1 IH2]. split; [exact IH1|].
      intros v. rewrite IH2. simpl. tauto.
    + destruct (IH a Hs) as [IH1 IH2]. split.
      * constructor; [exact IH1|].
        apply Forall_forall. intros v Hv.
        apply list_elem_of_In, IH2 in Hv.
        destruct Hv as [<-|Hv]; [lia|].
        apply StronglySorted_inv in Hs as [_ Hat].
        rewrite Forall_forall in Hat.
        apply list_elem_of_In, Hat in Hv. lia.
      * intros v. specialize (IH2 v). simpl in *. tauto.
Qed.

Lemma unique_sorted (a : list Z) : StronglySorted Z.lt (np.unique a).
Proof.
  unfold np.unique. pose proof (sort_sorted a) as Hs.
  destruct (np.sort a) as [|h t]; [constructor|].
  by apply keep_changes_spec.
Qed.

Lemma unique_In (a : list Z) (v : Z) : In v (np.unique a) <-> In v a.
Proof.
  unfold np.unique. pose proof (sort_sorted a) as Hs.
  pose proof (sort_In v a) as Hi.
  destruct (np.sort a) as [|h t]; [exact Hi|].
  rewrite <- Hi. by apply keep_changes_spec.
Qed.

Lemma sort_of_sorted (l : list Z) : StronglySorted Z.lt l -> np.sort l = l.
Proof.
  induction 1 as [|h t Hs IH Hall]; simpl; [done|].
  rewrite IH. destruct t as [|b t]; simpl; [done|].
  apply Forall_inv in Hall.
  destruct (Z.leb_spec h b); [done | lia].
Qed.

Lemma keep_changes_of_sorted (t : list Z) : forall h,
  StronglySorted Z.lt (h :: t) -> np.keep_changes h t = t.
Proof.
  induction t as [|a t IH]; intros h Hs; simpl; [done|].
  apply StronglySorted_inv in Hs as [Hs Hall].
  apply Forall_inv in Hall.
  destruct (Z.eqb_spec a h); [lia|].
  by rewrite IH.
Qed.

Lemma unique_of_sorted (l : list Z) : StronglySorted Z.lt l -> np.unique l = l.
Proof.
  intros Hs. unfold np.unique. rewrite sort_of_sorted by done.
  destruct l as [|h t]; [done|]. by rewrite keep_changes_of_sorted.
Qed.

Lemma unique_idempotent (a : list Z) : np.unique (np.unique a) = np.unique a.
Proof. apply unique_of_sorted, unique_sorted. Qed.

(** Two strictly increasing arrays with the same elements are equal. *)
Lemma sorted_same_elements (l1 : list Z) : forall l2,
  StronglySorted Z.lt l1 -> StronglySorted Z.lt l2 ->
  (forall v, In v l1 <-> In v l2) -> l1 = l2.
Proof.
  induction l1 as [|a l1 IH]; intros [|b l2] H1 H2 Hin.
  - done.
  - exfalso. apply (Hin b). by left.
  - exfalso. apply (Hin a). by left.
  - apply StronglySorted_inv in H1 as [H1 A1].
    apply StronglySorted_inv in H2 as [H2 A2].
    rewrite Forall_forall in A1. rewrite Forall_forall in A2.
    assert (a = b) as ->.
    { destruct (proj1 (Hin a) (or_introl eq_refl)) as [->|Ha]; [done|].
      destruct (proj2 (Hin b) (or_introl eq_refl)) as [->|Hb]; [done|].
      apply list_elem_of_In, A2 in Ha. apply list_elem_of_In, A1 in Hb. lia. }
    f_equal. apply IH; [done..|].
    intros v. split; intros Hv.
    + destruct (proj1 (Hin v) (or_intror Hv)) as [<-|]; [|done].
      apply list_elem_of_In, A1 in Hv. lia.
    + destruct (proj2 (Hin v) (or_intror Hv)) as [<-|]; [|done].
      apply list_elem_of_In, A2 in Hv. lia.
Qed.

End Unique.

(** ** The array library: [meshgrid], [ravel] and [c_] *)

Section Meshgrid.

Lemma c_app (a1 b1 c1 : list Z) : forall a2 b2 c2,
  length b1 = length a1 -> length c1 = length a1 ->
  np.c_ (a1 ++ a2) (b1 ++ b2) (c1 ++ c2) =
  np.c_ a1 b1 c1 ++ np.c_ a2 b2 c2.
Proof.
  revert b1 c1. induction a1 as [|x a1 IH]; intros [|y b1] [|z c1] a2 b2 c2;
    simpl; intros Hb Hc; try discriminate; [done|].
  f_equal. apply IH; congruence.
Qed.

Lemma c_map {A : Type} (f g h : A -> Z) (l : list A) :
  np.c_ (map f l) (map g l) (map h l) = map (fun i => (f i, g i, h i)) l.
Proof. induction l; simpl; congruence. Qed.

Lemma c_flat_map {A : Type} (f g h : A -> list Z) (l : list A) :
  (forall a, length (g a) = length (f a)) ->
  (forall a, length (h a) = length (f a)) ->
  np.c_ (flat_map f l) (flat_map g l) (flat_map h l) =
  flat_map (fun a => np.c_ (f a) (g a) (h a)) l.
Proof.
  intros Hg Hh. induction l as [|a l IH]; simpl; [done|].
  rewrite c_app by done. by rewrite IH.
Qed.

Lemma length_flat_map_const {A B : Type} (f : A -> list B) (n : nat)
      (l : list A) :
  (forall a, length (f a) = n) -> length (flat_map f l) = (n * length l)%nat.
Proof.
  intros Hf. induction l as [|a l IH]; simpl; [lia|].
  rewrite length_app, Hf, IH. lia.
Qed.

Lemma map_nth_seq {B : Type} (f : Z -> B) (l : list Z) :
  map (fun i => f (nth i l 0)) (seq 0 (length l)) = map f l.
Proof.
  induction l as [|a l IH]; simpl; [done|].
  f_equal. rewrite <- seq_shift, map_map. exact IH.
Qed.

Lemma flat_map_nth_seq {B : Type} (f : Z -> list B) (l : list Z) :
  flat_map (fun i => f (nth i l 0)) (seq 0 (length l)) = flat_map f l.
Proof.
  induction l as [|a l IH]; simpl; [done|].
  f_equal. rewrite <- seq_shift, flat_map_concat_map, map_map.
  rewrite <- flat_map_concat_map. exact IH.
Qed.

(** The points of a grid with the given axes, the first axis changing
    fastest. *)
Lemma c_ravel_meshgrid (x y z : list Z) :
  (let '(xx, yy, zz) := np.meshgrid_ij x y z in
   np.c_ (np.ravel_F xx) (np.ravel_F yy) (np.ravel_F zz)) =
  grid_nodes x y z.
Proof.
  unfold grid_nodes, np.meshgrid_ij, np.ravel_F. cbn [np.shape np.item].
  rewrite c_flat_map.
  - rewrite <- (flat_map_nth_seq
      (fun zk => flat_map (fun yj => map (fun xi => (xi, yj, zk)) x) y) z).
    apply flat_map_ext. intros k.
    rewrite c_flat_map.
    + rewrite <- (flat_map_nth_seq
        (fun yj => map (fun xi => (xi, yj, nth k z 0)) x) y).
      apply flat_map_ext. intros j.
      rewrite c_map. apply (map_nth_seq (fun xi => (xi, nth j y 0, nth k z 0))).
    + intros. by rewrite !length_map.
    + intros. by rewrite !length_map.
  - intros k.
    rewrite !(length_flat_map_const _ (length x)); [done|..];
      intros; by rewrite length_map, length_seq.
  - intros k.
    rewrite !(length_flat_map_const _ (length x)); [done|..];
      intros; by rewrite length_map, length_seq.
Qed.

Lemma lookup_flat_map_block {A B : Type} (f : A -> list B) (n : nat)
      (l : list A) :
  (forall a, length (f a) = n) ->
  forall (j i : nat) (a : A),
    l !! j = Some a -> (i < n)%nat ->
    flat_map f l !! (i + n * j)%nat = f a !! i.
Proof.
  intros Hf. induction l as [|b l IH]; intros j i a Hj Hi; [done|].
  simpl. destruct j as [|j]; simpl in Hj.
  - injection Hj as ->. rewrite Nat.mul_0_r, Nat.add_0_r.
    apply lookup_app_l. by rewrite Hf.
  - rewrite lookup_app_r by (rewrite Hf; lia).
    rewrite Hf. replace (i + n * S j - n)%nat with (i + n * j)%nat by lia.
    by apply IH.
Qed.

End Meshgrid.

(** ** The nodes of a grid *)

Section GridNodes.

Lemma grid_nodes_In (x y z : list Z) (a b c : Z) :
  In (a, b, c) (grid_nodes x y z) <-> In a x /\ In b y /\ In c z.
Proof.
  unfold grid_nodes. rewrite in_flat_map. split.
  - intros (zk & Hz & H). apply in_flat_map in H as (yj & Hy & H).
    apply in_map_iff in H as (xi & [= <- <- <-] & Hx). done.
  - intros (Hx & Hy & Hz). exists c. split; [done|].
    apply in_flat_map. exists b. split; [done|].
    apply in_map_iff. by exists a.
Qed.

Lemma grid_nodes_length (x y z : list Z) :
  length (grid_nodes x y z) = (length x * length y * length z)%nat.
Proof.
  unfold grid_nodes.
  rewrite (length_flat_map_const _ (length x * length y)%nat); [done|].
  intros zk. rewrite (length_flat_map_const _ (length x)); [done|].
  intros yj. by rewrite length_map.
Qed.

Lemma grid_nodes_lookup (x y z : list Z) (i j k : nat) (a b c : Z) :
  x !! i = Some a -> y !! j = Some b -> z !! k = Some c ->
  grid_nodes x y z !! (i + length x * (j + length y * k))%nat
  = Some (a, b, c).
Proof.
  intros Hx Hy Hz. unfold grid_nodes.
  pose proof (lookup_lt_Some _ _ _ Hx) as Hi.
  pose proof (lookup_lt_Some _ _ _ Hy) as Hj.
  replace (i + length x * (j + length y * k))%nat
    with ((i + length x * j) + (length x * length y) * k)%nat by lia.
  assert (forall zk : Z, length (flat_map (fun yj : Z =>
            map (fun xi : Z => (xi, yj, zk)) x) y)
          = (length x * length y)%nat) as Hblock.
  { intros zk. apply length_flat_map_const. intros. by rewrite length_map. }
  rewrite (lookup_flat_map_block _ _ z Hblock k _ c Hz) by nia.
  assert (forall yj : Z,
            length (map (fun xi : Z => (xi, yj, c)) x) = length x)
    as Hrow by (intros; by rewrite length_map).
  rewrite (lookup_flat_map_block _ _ y Hrow j i b Hy Hi).
  rewrite list_lookup_fmap. by rewrite Hx.
Qed.

Lemma sorted_NoDup (l : list Z) : StronglySorted Z.lt l -> NoDup l.
Proof.
  induction 1 as [|a l Hs IH Hall]; constructor; [|done].
  intros Ha. rewrite Forall_forall in Hall. apply Hall in Ha. lia.
Qed.

Lemma grid_nodes_NoDup (x y z : list Z) :
  NoDup x -> NoDup y -> NoDup z -> NoDup (grid_nodes x y z).
Proof.
  intros Hx Hy Hz. unfold grid_nodes.
  induction Hz as [|zk z Hzk Hz IH]; simpl; [constructor|].
  apply NoDup_app. split_and!.
  - clear IH Hzk. induction Hy as [|yj y Hyj Hy IH]; simpl; [constructor|].
    apply NoDup_app. split_and!.
    + apply NoDup_fmap_2; [|done]. intros ?? [=]. done.
    + intros p Hp Hq. apply list_elem_of_fmap in Hp as (xi & -> & _).
      apply list_elem_of_In, in_flat_map in Hq as (yj' & Hy' & Hq).
      apply in_map_iff in Hq as (xi' & [= _ <-] & _).
      by apply Hyj, list_elem_of_In.
    + exact IH.
  - intros [[a b] c] Hp Hq.
    apply list_elem_of_In, in_flat_map in Hp as (yj & _ & Hp).
    apply in_map_iff in Hp as (xi & [= _ _ <-] & _).
    apply list_elem_of_In, (grid_nodes_In x y z a b zk) in Hq as (_ & _ & Hq).
    by apply Hzk, list_elem_of_In.
  - exact IH.
Qed.

End GridNodes.

(** ** RectilinearGrid *)

Section RectilinearGridFacts.

Context `{Toolkit}.

Lemma unique_is_unique_sorted_version (a : list Z) :
  unique_sorted_version (np.unique a) a.
Proof. split; [apply unique_sorted | intros; apply unique_In]. Qed.

(** The unique, sorted version of an array is what [np.unique] gives. *)
Lemma unique_sorted_version_unique (u a : list Z) :
  unique_sorted_version u a -> u = np.unique a.
Proof.
  intros [Hs Hin]. apply sorted_same_elements; [done | apply unique_sorted |].
  intros v. by rewrite Hin, unique_In.
Qed.

Lemma RG_init_three (x y z : np.ndarray) :
  RectilinearGrid.__init__ [PyNdarray x; PyNdarray y; PyNdarray z]
  = Ok (RectilinearGrid._from_arrays x y z vtkRectilinearGrid.new).
Proof. reflexivity. Qed.

Lemma RG_init_two (x y : np.ndarray) :
  RectilinearGrid.__init__ [PyNdarray x; PyNdarray y]
  = Ok (RectilinearGrid._from_arrays x y (np.Arr1 [0])
          vtkRectilinearGrid.new).
Proof. reflexivity. Qed.

Lemma RG_from_arrays_axes (x y z : np.ndarray) (self : vtkRectilinearGrid.t) :
  axes_strictly_increasing (RectilinearGrid._from_arrays x y z self).
Proof. repeat split; apply unique_sorted. Qed.

Lemma RG_from_arrays_coordinates (x y z : np.ndarray)
      (self : vtkRectilinearGrid.t) :
  let g := RectilinearGrid._from_arrays x y z self in
  vtkRectilinearGrid.XCoordinates g = np.Arr1 (np.unique (np.ravel x)) /\
  vtkRectilinearGrid.YCoordinates g = np.Arr1 (np.unique (np.ravel y)) /\
  vtkRectilinearGrid.ZCoordinates g = np.Arr1 (np.unique (np.ravel z)).
Proof. done. Qed.

Lemma RG_points_nodes (g : vtkRectilinearGrid.t) :
  RectilinearGrid.points g =
  np.ArrN3 (grid_nodes (np.ravel (vtkRectilinearGrid.XCoordinates g))
                       (np.ravel (vtkRectilinearGrid.YCoordinates g))
                       (np.ravel (vtkRectilinearGrid.ZCoordinates g))).
Proof.
  unfold RectilinearGrid.points, vtk_to_numpy.
  unfold vtkRectilinearGrid.GetXCoordinates, vtkRectilinearGrid.GetYCoordinates,
    vtkRectilinearGrid.GetZCoordinates.
  rewrite <- c_ravel_meshgrid. by destruct (np.meshgrid_ij _ _ _) as [[? ?] ?].
Qed.

Lemma RG_set_points_array (rows : list (Z * Z * Z))
      (self : vtkRectilinearGrid.t) :
  RectilinearGrid.set_points (PyNdarray (np.ArrN3 rows)) self =
  (RectilinearGrid._from_arrays (np.Arr1 (np.unique (col0 rows)))
     (np.Arr1 (np.unique (col1 rows))) (np.Arr1 (np.unique (col2 rows))) self,
   Ok tt).
Proof. reflexivity. Qed.

End RectilinearGridFacts.

(** C1: a rectilinear grid constructed from three coordinate arrays gives
    back, through its properties [x], [y] and [z], the unique, sorted
    version of each array: strictly increasing, with the values of the
    array it was given and no others. *)
Theorem C1_construct_then_read_axes `{Toolkit} (xs ys zs : np.ndarray) :
  exists g ux uy uz,
    RectilinearGrid.__init__ [PyNdarray xs; PyNdarray ys; PyNdarray zs] = Ok g
    /\ RectilinearGrid.x g = np.Arr1 ux
    /\ RectilinearGrid.y g = np.Arr1 uy
    /\ RectilinearGrid.z g = np.Arr1 uz
    /\ unique_sorted_version ux (np.ravel xs)
    /\ unique_sorted_version uy (np.ravel ys)
    /\ unique_sorted_version uz (np.ravel zs).
Proof.
  eexists _, _, _, _. rewrite RG_init_three.
  split; [reflexivity|].
  repeat (split; [reflexivity|]).
  split_and!; apply unique_is_unique_sorted_version.
Qed.

(** C2: after an N-by-3 array is assigned to the [points] property of a
    rectilinear grid, the property gives the Cartesian product of the
    values of the first, second and third columns of the array, every
    point once. *)
Theorem C2_set_points_then_read (rows : list (Z * Z * Z))
        (self : vtkRectilinearGrid.t) :
  exists self' pts,
    RectilinearGrid.set_points (PyNdarray (np.ArrN3 rows)) self
    = (self', Ok tt)
    /\ RectilinearGrid.points self' = np.ArrN3 pts
    /\ cartesian_product_of pts (col0 rows) (col1 rows) (col2 rows).
Proof.
  eexists _, _. rewrite RG_set_points_array.
  split; [reflexivity|]. rewrite RG_points_nodes.
  split; [reflexivity|].
  destruct (RG_from_arrays_coordinates (np.Arr1 (np.unique (col0 rows)))
    (np.Arr1 (np.unique (col1 rows))) (np.Arr1 (np.unique (col2 rows))) self)
    as (-> & -> & ->).
  cbn [np.ravel]. rewrite !unique_idempotent. split.
  - apply grid_nodes_NoDup; apply sorted_NoDup, unique_sorted.
  - intros a b c. rewrite grid_nodes_In, !unique_In. done.
Qed.

(** C3, as the claim has it, fails: the setter of [x] stores the array it
    is given as it is, so a grid whose axes are strictly increasing has,
    after [x] is set to [3, 1, 1], the axis [3, 1, 1]. *)
Lemma C3_set_x_keeps_order_and_duplicates :
  let g0 := RectilinearGrid._from_arrays (np.Arr1 [0; 1]) (np.Arr1 [0; 1])
              (np.Arr1 [0; 1]) vtkRectilinearGrid.new in
  let r := RectilinearGrid.set_x (np.Arr1 [3; 1; 1]) g0 in
  axes_strictly_increasing g0 /\
  r.2 = Ok tt /\
  RectilinearGrid.x r.1 = np.Arr1 [3; 1; 1] /\
  ~ axes_strictly_increasing r.1.
Proof.
  cbv zeta. split; [apply RG_from_arrays_axes|].
  split; [reflexivity|]. split; [reflexivity|].
  intros [Hx _]. cbn in Hx.
  apply StronglySorted_inv in Hx as [_ Hx].
  apply Forall_inv in Hx. lia.
Qed.

(** C3, amended: after a construction from two or three arrays, after
    [_from_arrays] and after an N-by-3 array is assigned to [points], each
    stored axis is strictly increasing; the setters of [x], [y] and [z]
    store the array they are given. *)
Theorem C3_axes_strictly_increasing `{Toolkit} :
  (forall x y z, exists g,
      RectilinearGrid.__init__ [PyNdarray x; PyNdarray y; PyNdarray z] = Ok g
      /\ axes_strictly_increasing g) /\
  (forall x y, exists g,
      RectilinearGrid.__init__ [PyNdarray x; PyNdarray y] = Ok g
      /\ axes_strictly_increasing g) /\
  (forall x y z self,
      axes_strictly_increasing (RectilinearGrid._from_arrays x y z self)) /\
  (forall rows self, exists self',
      RectilinearGrid.set_points (PyNdarray (np.ArrN3 rows)) self
      = (self', Ok tt)
      /\ axes_strictly_increasing self') /\
  (forall c self,
      RectilinearGrid.x (RectilinearGrid.set_x c self).1 = c /\
      RectilinearGrid.y (RectilinearGrid.set_y c self).1 = c /\
      RectilinearGrid.z (RectilinearGrid.set_z c self).1 = c).
Proof.
  split_and!.
  - intros. eexists. rewrite RG_init_three. split; [done|].
    apply RG_from_arrays_axes.
  - intros. eexists. rewrite RG_init_two. split; [done|].
    apply RG_from_arrays_axes.
  - apply RG_from_arrays_axes.
  - intros. eexists. rewrite RG_set_points_array. split; [done|].
    apply RG_from_arrays_axes.
  - done.
Qed.

(** C9: a rectilinear grid constructed from two arrays is the grid
    constructed from the two arrays and the array [0.0]: its third
    dimension is 1, its [z] axis is [0.0], and every point of it has the
    third coordinate 0. *)
Theorem C9_two_arrays_pad_z `{Toolkit} (xs ys : np.ndarray) :
  RectilinearGrid.__init__ [PyNdarray xs; PyNdarray ys]
  = RectilinearGrid.__init__
      [PyNdarray xs; PyNdarray ys; PyNdarray (np.Arr1 [0])] /\
  exists g pts,
    RectilinearGrid.__init__ [PyNdarray xs; PyNdarray ys] = Ok g
    /\ (Grid.dimensions g).2 = 1
    /\ RectilinearGrid.z g = np.Arr1 [0]
    /\ RectilinearGrid.points g = np.ArrN3 pts
    /\ forall a b c, In (a, b, c) pts -> c = 0.
Proof.
  split; [reflexivity|].
  eexists _, _. rewrite RG_init_two.
  split; [reflexivity|]. split; [reflexivity|]. split; [reflexivity|].
  rewrite RG_points_nodes. split; [reflexivity|].
  intros a b c Hin. apply grid_nodes_In in Hin as (_ & _ & Hc).
  cbn in Hc. intuition.
Qed.

(** ** Where errors come from *)

Section Surfaces.

Context `{Toolkit}.

Lemma ok_surfaces {A : Type} (a : A) : surfaces (Ok a).
Proof. done. Qed.

Lemma surfaced_surfaces {A : Type} (e : ForeignError) :
  surfaces (@Err A (Surfaced e)).
Proof. done. Qed.

Lemma bind_surfaces {A B : Type} (r : Result A) (k : A -> Result B) :
  surfaces r -> (forall a, surfaces (k a)) -> surfaces (r ≫= k).
Proof.
  destruct r as [a|[e|e]]; intros Hr Hk; [apply Hk | done | done].
Qed.

Lemma ret_surfaces {A : Type} (a : A) : surfaces (mret a : Result A).
Proof. done. Qed.

Lemma lift_surfaces {S A : Type} (r : Result A) :
  surfaces r -> method_surfaces (@lift S A r).
Proof. by intros Hr s. Qed.

Lemma modify_surfaces {S : Type} (f : S -> S) : method_surfaces (modify f).
Proof. by intros s. Qed.

Lemma method_bind_surfaces {S A B : Type} (m : Method S A)
      (k : A -> Method S B) :
  method_surfaces m -> (forall a, method_surfaces (k a)) ->
  method_surfaces (m ≫= k).
Proof.
  intros Hm Hk s. unfold mbind, method_bind. specialize (Hm s).
  destruct (m s) as [s' [a|e]]; [apply Hk | exact Hm].
Qed.

Lemma constructed_surfaces {A : Type} (r : vtkImageData.t * Result A) :
  surfaces r.2 -> surfaces (UniformGrid.constructed r).
Proof. by destruct r as [s [a|[e|e]]]. Qed.

Lemma py_getitem_surfaces (o : PyObj) (i : nat) : surfaces (py_getitem o i).
Proof.
  destruct o as [| | items | [v|rows] | | |]; simpl; try done.
  - by destruct (String.get i s).
  - by destruct (items !! i).
  - by destruct (v !! i).
  - by destruct (rows !! i) as [[[? ?] ?]|].
Qed.

Lemma py_len_surfaces (o : PyObj) : surfaces (py_len o).
Proof. by destruct o. Qed.

Lemma vtk_number_surfaces (o : PyObj) : surfaces (vtk_number o).
Proof.
  destruct o as [| | | a | | |]; simpl; try done.
  by destruct (np.ravel a) as [|? [|? ?]].
Qed.

Lemma full_surfaces (n v : Z) : surfaces (np.full n v).
Proof. unfold np.full. by destruct (n <? 0). Qed.

Lemma min_surfaces (a : list Z) : surfaces (np.min a).
Proof. by destruct a. Qed.

Lemma column_surfaces (c : nat) (a : np.ndarray) : surfaces (np.column c a).
Proof. by destruct a as [v|rows]; [|destruct c as [|[|[|c]]]]. Qed.

End Surfaces.

Create HintDb surfaces.

#[local] Hint Resolve ok_surfaces surfaced_surfaces bind_surfaces ret_surfaces
  lift_surfaces modify_surfaces method_bind_surfaces constructed_surfaces
  py_getitem_surfaces py_len_surfaces vtk_number_surfaces full_surfaces
  min_surfaces column_surfaces : surfaces.

Section CallsSurface.

Context `{Toolkit}.

Lemma set_dimensions_surfaces {T} `{VtkGrid T} (dims : PyObj) :
  method_surfaces (Grid.set_dimensions (T:=T) dims).
Proof. unfold Grid.set_dimensions. auto 20 with surfaces. Qed.

Lemma UG_from_specs_surfaces (dims spacing origin : PyObj) :
  method_surfaces (UniformGrid._from_specs dims spacing origin).
Proof. unfold UniformGrid._from_specs. auto 40 with surfaces. Qed.

Lemma UG_set_origin_surfaces (o : PyObj) :
  method_surfaces (UniformGrid.set_origin o).
Proof. unfold UniformGrid.set_origin. auto 20 with surfaces. Qed.

Lemma UG_set_spacing_surfaces (sp : PyObj) :
  method_surfaces (UniformGrid.set_spacing sp).
Proof. unfold UniformGrid.set_spacing. auto 20 with surfaces. Qed.

End CallsSurface.

Section ConstructorsSurface.

Context `{Toolkit}.

Lemma RG_init_surfaces (args : list PyObj) :
  surfaces (RectilinearGrid.__init__ args).
Proof.
  unfold RectilinearGrid.__init__, RectilinearGrid._load_file.
  repeat case_match; simplify_eq; done.
Qed.

Lemma UG_load_file_surfaces (f : string) :
  method_surfaces (UniformGrid._load_file f).
Proof.
  intros s. unfold UniformGrid._load_file. by case_match.
Qed.

Lemma UG_init_surfaces (args : list PyObj) :
  surfaces (UniformGrid.__init__ args).
Proof.
  unfold UniformGrid.__init__. cbv zeta.
  destruct (length args =? 1)%nat.
  - destruct (nth 0 args PyNone); try done;
      apply constructed_surfaces;
      first [apply UG_load_file_surfaces | apply UG_from_specs_surfaces].
  - destruct ((1 <? length args)%nat && (length args <? 4)%nat); [|done].
    apply bind_surfaces; [apply py_len_surfaces|]. intros l0.
    apply bind_surfaces.
    { destruct (1 <? length args)%nat; auto with surfaces. }
    intros v1. apply bind_surfaces.
    { destruct (2 <? length args)%nat; auto with surfaces. }
    intros v2.
    repeat case_match; try done;
      apply constructed_surfaces, UG_from_specs_surfaces.
Qed.

Lemma UG_points_surfaces (self : vtkImageData.t) :
  surfaces (UniformGrid.points self).
Proof.
  unfold UniformGrid.points.
  destruct (Grid.dimensions self) as [[nx ny] nz].
  destruct (UniformGrid.spacing self) as [[dx dy] dz].
  destruct (UniformGrid.origin self) as [[ox oy] oz].
  cbv zeta. unfold np.meshgrid_ij. auto 10 with surfaces.
Qed.

Lemma UG_set_points_array_surfaces (a : np.ndarray) :
  method_surfaces (UniformGrid.set_points (PyNdarray a)).
Proof.
  unfold UniformGrid.set_points. cbv zeta.
  pose proof UG_from_specs_surfaces. auto 20 with surfaces.
Qed.

Lemma UG_gen_coords_surfaces (self : vtkImageData.t) (i : nat) :
  surfaces (UniformGrid.gen_coords self i).
Proof. unfold UniformGrid.gen_coords. auto with surfaces. Qed.

Lemma UG_cast_to_rectilinear_grid_surfaces :
  method_surfaces UniformGrid.cast_to_rectilinear_grid.
Proof.
  intros self. unfold UniformGrid.cast_to_rectilinear_grid. cbn [snd].
  pose proof UG_gen_coords_surfaces. pose proof RG_init_surfaces.
  cbv zeta. auto 10 with surfaces.
Qed.

End ConstructorsSurface.

Lemma error_of_surfaces {A : Type} (r : Result A) (e : OwnError) :
  surfaces r -> error_of r <> Some (Raised e).
Proof. by destruct r as [a|[e'|e']]. Qed.

(** C4, as the claim has it, fails: [Grid.__new__] raises a [TypeError] of
    the module's own when the abstract class [Grid] is instantiated, and
    it is not a [points] setter. *)
Lemma C4_abstract_Grid_raises :
  @run no_files (Grid_new cls_Grid) =
    Some (Raised (TypeError
      "pyvista.Grid is an abstract class and may not be instantiated."))
  /\ points_setter_rejecting (Grid_new cls_Grid) = false.
Proof. split; reflexivity. Qed.

(** C4, amended: an error raised by the module's own code is either the
    [TypeError] of a [points] setter given an argument that is not an
    array, or the [TypeError] of [Grid.__new__] for the abstract class
    [Grid]; every other error of a call surfaces from the interpreter, the
    array library or the toolkit. *)
Theorem C4_errors_raised_directly `{Toolkit} (c : Call) (e : OwnError) :
  run c = Some (Raised e) ->
  (points_setter_rejecting c = true
   /\ e = TypeError "Points must be a numpy array")
  \/ (c = Grid_new cls_Grid
      /\ e = TypeError
           "pyvista.Grid is an abstract class and may not be instantiated.").
Proof.
  intros Hrun. destruct c; simpl in Hrun; try discriminate.
  - right. destruct cls; simpl in Hrun; [|discriminate..].
    injection Hrun as <-. done.
  - by apply error_of_surfaces in Hrun; [|apply RG_init_surfaces].
  - by apply error_of_surfaces in Hrun; [|apply set_dimensions_surfaces].
  - destruct points as [| | | a | | |];
      try (simpl in Hrun; injection Hrun as <-; left; done).
    exfalso. revert Hrun. apply error_of_surfaces.
    assert (method_surfaces (RectilinearGrid.set_points (PyNdarray a))) as Hs
      by (unfold RectilinearGrid.set_points; auto 10 with surfaces).
    apply Hs.
  - by apply error_of_surfaces in Hrun; [|apply UG_init_surfaces].
  - by apply error_of_surfaces in Hrun; [|apply set_dimensions_surfaces].
  - by apply error_of_surfaces in Hrun; [|apply UG_from_specs_surfaces].
  - by apply error_of_surfaces in Hrun; [|apply UG_points_surfaces].
  - destruct points as [| | | a | | |];
      try (simpl in Hrun; injection Hrun as <-; left; done).
    exfalso. revert Hrun. apply error_of_surfaces.
    apply UG_set_points_array_surfaces.
  - apply error_of_surfaces in Hrun; [done|].
    unfold UniformGrid.x.
    apply bind_surfaces; [apply UG_points_surfaces | apply column_surfaces].
  - apply error_of_surfaces in Hrun; [done|].
    unfold UniformGrid.y.
    apply bind_surfaces; [apply UG_points_surfaces | apply column_surfaces].
  - apply error_of_surfaces in Hrun; [done|].
    unfold UniformGrid.z.
    apply bind_surfaces; [apply UG_points_surfaces | apply column_surfaces].
  - by apply error_of_surfaces in Hrun; [|apply UG_set_origin_surfaces].
  - by apply error_of_surfaces in Hrun; [|apply UG_set_spacing_surfaces].
  - apply error_of_surfaces in Hrun; [done|].
    unfold UniformGrid.cast_to_structured_grid. by case_match.
  - by apply error_of_surfaces in Hrun;
      [|apply UG_cast_to_rectilinear_grid_surfaces].
Qed.

(** A [points] setter given [None] raises the module's [TypeError]. *)
Lemma C4_errors_raised_directly_witness :
  @run no_files (RG_set_points vtkRectilinearGrid.new PyNone)
    = Some (Raised (TypeError "Points must be a numpy array")) /\
  ((points_setter_rejecting (RG_set_points vtkRectilinearGrid.new PyNone)
      = true
    /\ TypeError "Points must be a numpy array"
       = TypeError "Points must be a numpy array")
   \/ (RG_set_points vtkRectilinearGrid.new PyNone = Grid_new cls_Grid
       /\ TypeError "Points must be a numpy array"
          = TypeError
           "pyvista.Grid is an abstract class and may not be instantiated.")).
Proof.
  split; [reflexivity|].
  apply (@C4_errors_raised_directly no_files
           (RG_set_points vtkRectilinearGrid.new PyNone)
           (TypeError "Points must be a numpy array")).
  reflexivity.
Defined.

(** Every argument that is not an array is rejected by both [points]
    setters, with [self] unchanged. *)
Lemma set_points_rejects_non_arrays (p : PyObj) :
  is_ndarray p = false ->
  (forall self, RectilinearGrid.set_points p self
     = (self, Err (Raised (TypeError "Points must be a numpy array")))) /\
  (forall self, UniformGrid.set_points p self
     = (self, Err (Raised (TypeError "Points must be a numpy array")))).
Proof. by destruct p. Qed.

(** C10, as the claim has it, fails: with three arguments of which only
    the third does not have length 3, [_from_specs] is called with the
    first two, and the grid is not empty. *)
Lemma C10_only_third_argument_invalid :
  let dims := PyTuple [PyNum 2; PyNum 2; PyNum 2] in
  let spacing := PyTuple [PyNum 3; PyNum 3; PyNum 3] in
  let origin := PyTuple [PyNum 5; PyNum 5] in
  py_len origin = Ok 2%nat /\
  @UniformGrid.__init__ no_files [dims; spacing; origin]
    = Ok (vtkImageData.mk (2, 2, 2) (0, 0, 0) (3, 3, 3) no_attached) /\
  @UniformGrid.__init__ no_files [dims; spacing; origin]
    <> Ok vtkImageData.new.
Proof. cbv zeta. split; [reflexivity|]. split; [reflexivity|]. discriminate. Qed.

(** C10, amended: for two or three arguments that each have a length,
    the grid is empty when the first or the second does not have length
    3; with three arguments of which only the third does not have length
    3, the grid is the one constructed from the first two.  In no case is
    an error raised by the module's own code. *)
Theorem C10_invalid_specification_arguments `{Toolkit}
        (a0 a1 a2 : PyObj) (n0 n1 n2 : nat) :
  py_len a0 = Ok n0 -> py_len a1 = Ok n1 -> py_len a2 = Ok n2 ->
  (n0 <> 3%nat \/ n1 <> 3%nat ->
     UniformGrid.__init__ [a0; a1] = Ok vtkImageData.new /\
     UniformGrid.__init__ [a0; a1; a2] = Ok vtkImageData.new) /\
  (n0 = 3%nat -> n1 = 3%nat -> n2 <> 3%nat ->
     UniformGrid.__init__ [a0; a1; a2] = UniformGrid.__init__ [a0; a1] /\
     UniformGrid.__init__ [a0; a1]
     = UniformGrid.constructed
         (UniformGrid._from_specs a0 a1 UniformGrid.default_origin
            vtkImageData.new)) /\
  surfaces (UniformGrid.__init__ [a0; a1]) /\
  surfaces (UniformGrid.__init__ [a0; a1; a2]).
Proof.
  intros H0 H1 H2. split_and!.
  - intros Hn. unfold UniformGrid.__init__. cbn. rewrite H0, H1, H2. cbn.
    destruct (Nat.eqb_spec n0 3), (Nat.eqb_spec n1 3); cbn; try done; lia.
  - intros -> -> Hn. unfold UniformGrid.__init__. cbn.
    rewrite H0, H1, H2. cbn.
    by destruct (Nat.eqb_spec n2 3).
  - apply UG_init_surfaces.
  - apply UG_init_surfaces.
Qed.

(** Dimensions of length two: both constructions give the empty grid. *)
Lemma C10_invalid_specification_arguments_witness :
  let a0 := PyTuple [PyNum 2; PyNum 2] in
  let a1 := PyTuple [PyNum 1; PyNum 1; PyNum 1] in
  let a2 := PyTuple [PyNum 0; PyNum 0; PyNum 0] in
  @UniformGrid.__init__ no_files [a0; a1] = Ok vtkImageData.new /\
  @UniformGrid.__init__ no_files [a0; a1; a2] = Ok vtkImageData.new.
Proof.
  cbv zeta.
  apply (@C10_invalid_specification_arguments no_files
           (PyTuple [PyNum 2; PyNum 2])
           (PyTuple [PyNum 1; PyNum 1; PyNum 1])
           (PyTuple [PyNum 0; PyNum 0; PyNum 0]) 2%nat 3%nat 3%nat
           eq_refl eq_refl eq_refl).
  left. lia.
Defined.

(** ** UniformGrid *)

Section UniformGridFacts.

Lemma cumsum_from_repeat (d : Z) (m : nat) : forall acc,
  np.cumsum_from acc (repeat d m)
  = map (fun i => acc + Z.of_nat (S i) * d) (seq 0 m).
Proof.
  induction m as [|m IH]; intros acc; [done|].
  cbn [repeat np.cumsum_from seq map]. f_equal; [lia|].
  rewrite IH, <- seq_shift, map_map.
  apply map_ext. intros i. lia.
Qed.

Lemma sampled_axis_S (o d : Z) (n : nat) :
  sampled_axis o d (S n) = o :: sampled_axis (o + d) d n.
Proof.
  unfold sampled_axis. cbn [seq map]. f_equal; [lia|].
  rewrite <- seq_shift, map_map. apply map_ext. intros i. lia.
Qed.

(** The axis as the [points] property computes it. *)
Lemma insert_cumsum_full (o d : Z) (m : nat) :
  np.add_scalar (np.insert0 (np.cumsum (repeat d m)) 0) o
  = sampled_axis o d (S m).
Proof.
  unfold np.add_scalar, np.insert0, np.cumsum, sampled_axis.
  rewrite cumsum_from_repeat. cbn [seq map]. f_equal; [lia|].
  rewrite <- seq_shift, !map_map. apply map_ext. intros i. lia.
Qed.

(** The axis as [gen_coords] computes it. *)
Lemma cumsum_insert_full (o d : Z) (m : nat) :
  np.add_scalar (np.cumsum (np.insert0 (repeat d m) 0)) o
  = sampled_axis o d (S m).
Proof. rewrite <- insert_cumsum_full. reflexivity. Qed.

Lemma full_ok (n v : Z) :
  1 <= n -> np.full (n - 1) v = Ok (repeat v (Z.to_nat (n - 1))).
Proof.
  intros Hn. unfold np.full. destruct (Z.ltb_spec (n - 1) 0); [lia | done].
Qed.

Lemma full_negative (n v : Z) :
  n < 1 -> np.full (n - 1) v = Err (Surfaced NumpyValueError).
Proof.
  intros Hn. unfold np.full. destruct (Z.ltb_spec (n - 1) 0); [done | lia].
Qed.

Lemma sampled_axis_In (o d : Z) (n : nat) (v : Z) :
  In v (sampled_axis o d n) ->
  exists i, (i < n)%nat /\ v = o + Z.of_nat i * d.
Proof.
  unfold sampled_axis. rewrite in_map_iff. intros (i & <- & Hi).
  apply in_seq in Hi. exists i. split; [lia | done].
Qed.

Lemma UG_gen_coords_ok (g : vtkImageData.t) (i : nat) :
  1 <= UniformGrid.item3 (vtkImageData.Dimensions g) i ->
  UniformGrid.gen_coords g i =
  Ok (sampled_axis (UniformGrid.item3 (vtkImageData.Origin g) i)
        (UniformGrid.item3 (vtkImageData.Spacing g) i)
        (Z.to_nat (UniformGrid.item3 (vtkImageData.Dimensions g) i))).
Proof.
  intros Hn. unfold UniformGrid.gen_coords.
  unfold Grid.dimensions, UniformGrid.spacing, UniformGrid.origin.
  cbn [GetDimensions image_VtkGrid].
  unfold vtkImageData.GetDimensions, vtkImageData.GetSpacing,
    vtkImageData.GetOrigin.
  rewrite full_ok by done. cbn [mbind result_bind mret result_ret].
  rewrite cumsum_insert_full. do 2 f_equal. lia.
Qed.

(** A grid with a first dimension below 1 has no nodes, and [points]
    ends with the array library's error for a negative length. *)
Lemma UG_points_without_nodes (nx ny nz : Z) (o sp : Z * Z * Z)
      (d : Attached) :
  nx < 1 ->
  UniformGrid.points (vtkImageData.mk (nx, ny, nz) o sp d)
  = Err (Surfaced NumpyValueError).
Proof.
  intros Hx. destruct o as [[ox oy] oz], sp as [[dx dy] dz].
  unfold UniformGrid.points.
  cbn [Grid.dimensions GetDimensions image_VtkGrid
       vtkImageData.GetDimensions vtkImageData.Dimensions
       UniformGrid.spacing vtkImageData.GetSpacing vtkImageData.Spacing
       UniformGrid.origin vtkImageData.GetOrigin vtkImageData.Origin].
  rewrite (full_negative nx dx Hx). reflexivity.
Qed.

End UniformGridFacts.

(** C5: the uniform grid with origin (0,0,0), spacing (1,1,1) and
    dimensions (2,2,2), whatever data is attached to it, is cast to a
    rectilinear grid whose [x], [y] and [z] axes are each [0, 1]; the
    grid constructed from these three specifications is such a grid. *)
Theorem C5_cast_unit_cube `{Toolkit} (d : Attached) :
  let g := vtkImageData.mk (2, 2, 2) (0, 0, 0) (1, 1, 1) d in
  UniformGrid.__init__
    [PyTuple [PyNum 2; PyNum 2; PyNum 2]; PyTuple [PyNum 1; PyNum 1; PyNum 1];
     PyTuple [PyNum 0; PyNum 0; PyNum 0]]
  = Ok (vtkImageData.mk (2, 2, 2) (0, 0, 0) (1, 1, 1) no_attached) /\
  exists rg,
    UniformGrid.cast_to_rectilinear_grid g = (g, Ok rg)
    /\ RectilinearGrid.x rg = np.Arr1 [0; 1]
    /\ RectilinearGrid.y rg = np.Arr1 [0; 1]
    /\ RectilinearGrid.z rg = np.Arr1 [0; 1].
Proof.
  cbv zeta. split; [reflexivity|].
  eexists. split; [reflexivity|]. repeat split.
Qed.

(** C8, as the claim has it, fails: the empty uniform grid, which the
    constructor gives without arguments and for the dimensions (0, 0, 0),
    has the dimensions (0, 0, 0), and the cast ends with the array
    library's error for a negative length. *)
Lemma C8_cast_of_empty_grid_fails :
  @UniformGrid.__init__ no_files [] = Ok vtkImageData.new /\
  @UniformGrid.__init__ no_files [PyTuple [PyNum 0; PyNum 0; PyNum 0]]
  = Ok vtkImageData.new /\
  Grid.dimensions vtkImageData.new = (0, 0, 0) /\
  @UniformGrid.cast_to_rectilinear_grid no_files vtkImageData.new
  = (vtkImageData.new, Err (Surfaced NumpyValueError)).
Proof. split_and!; reflexivity. Qed.

Section UniformGridSetPoints.

Lemma bind_lift_ok {S A B : Type} (a : A) (k : A -> Method S B) (s : S) :
  (lift (Ok a) ≫= k) s = k a s.
Proof. reflexivity. Qed.

Lemma foldl_min_spec (t : list Z) : forall h,
  minimum_of (foldl Z.min h t) (h :: t).
Proof.
  induction t as [|a t IH]; intros h.
  - split; [by left|]. intros v [<-|[]]. simpl. lia.
  - cbn [foldl]. destruct (IH (Z.min h a)) as [Hin Hle]. split.
    + destruct Hin as [Heq|Hin]; [|by right; right].
      rewrite <- Heq. destruct (Z.min_spec h a) as [[_ ->]|[_ ->]];
        [by left | by right; left].
    + intros v Hv.
      assert (foldl Z.min (Z.min h a) t <= Z.min h a) as Hm
        by (apply Hle; by left).
      destruct Hv as [<-|[<-|Hv]]; [lia | lia |].
      apply Hle. by right.
Qed.

Lemma min_spec (a : list Z) :
  a <> [] -> exists m, np.min a = Ok m /\ minimum_of m a.
Proof.
  destruct a as [|h t]; [done|]. intros _. eexists. split; [done|].
  apply foldl_min_spec.
Qed.

Lemma minimum_of_unique (m : Z) (a : list Z) :
  minimum_of m (np.unique a) -> minimum_of m a.
Proof.
  intros [Hin Hle]. split; [by apply unique_In|].
  intros v Hv. by apply Hle, unique_In.
Qed.

Lemma length_unique (a : list Z) :
  Z.of_nat (length (np.unique a)) = count_distinct a.
Proof.
  unfold count_distinct. f_equal.
  rewrite <- (size_list_to_set (C:=gset Z) (np.unique a))
    by apply sorted_NoDup, unique_sorted.
  f_equal. apply set_eq. intros v.
  rewrite !elem_of_list_to_set, !list_elem_of_In. apply unique_In.
Qed.



End UniformGridSetPoints.



(** The setter under spacing that is not uniform, and for a single
    point: [np.unique] of [np.diff] has two elements, or none, the
    toolkit refuses it as a spacing, and the dimensions and the origin,
    set before, stay set while the spacing is the one from before. *)
Lemma UG_set_points_without_single_difference :
  let g := vtkImageData.mk (0, 0, 0) (0, 0, 0) (7, 7, 7) no_attached in
  UniformGrid.set_points
    (PyNdarray (np.ArrN3 [(0, 0, 0); (1, 1, 1); (3, 2, 2)])) g
  = (vtkImageData.mk (3, 3, 3) (0, 0, 0) (7, 7, 7) no_attached,
     Err (Surfaced VtkTypeError)) /\
  UniformGrid.set_points (PyNdarray (np.ArrN3 [(4, 5, 6)])) g
  = (vtkImageData.mk (1, 1, 1) (4, 5, 6) (7, 7, 7) no_attached,
     Err (Surfaced VtkTypeError)) /\
  UniformGrid.set_points (PyNdarray (np.ArrN3 [])) g
  = (g, Err (Surfaced NumpyValueError)).
Proof. cbv zeta. split_and!; reflexivity. Qed.

(** * Further properties of the module *)

(** ** RectilinearGrid: dimensions, points and their order *)

Section RectilinearGridMore.

Context `{Toolkit}.

Lemma col0_In (a : Z) (pts : list (Z * Z * Z)) :
  In a (col0 pts) <-> exists b c, In (a, b, c) pts.
Proof.
  unfold col0. rewrite in_map_iff. split.
  - intros ([[a' b] c] & <- & Hin). by exists b, c.
  - intros (b & c & Hin). by exists (a, b, c).
Qed.

Lemma col1_In (b : Z) (pts : list (Z * Z * Z)) :
  In b (col1 pts) <-> exists a c, In (a, b, c) pts.
Proof.
  unfold col1. rewrite in_map_iff. split.
  - intros ([[a b'] c] & <- & Hin). by exists a, c.
  - intros (a & c & Hin). by exists (a, b, c).
Qed.

Lemma col2_In (c : Z) (pts : list (Z * Z * Z)) :
  In c (col2 pts) <-> exists a b, In (a, b, c) pts.
Proof.
  unfold col2. rewrite in_map_iff. split.
  - intros ([[a b] c'] & <- & Hin). by exists a, b.
  - intros (a & b & Hin). by exists (a, b, c).
Qed.

Lemma nonempty_In (l : list Z) : l <> [] -> exists v, In v l.
Proof. destruct l as [|v l]; [done|]. intros _. exists v. by left. Qed.

(** The distinct values of a column of the nodes of a grid with no empty
    axis are the values of that axis. *)
Lemma unique_columns_of_grid_nodes (x y z : list Z) :
  StronglySorted Z.lt x -> StronglySorted Z.lt y -> StronglySorted Z.lt z ->
  x <> [] -> y <> [] -> z <> [] ->
  np.unique (col0 (grid_nodes x y z)) = x /\
  np.unique (col1 (grid_nodes x y z)) = y /\
  np.unique (col2 (grid_nodes x y z)) = z.
Proof.
  intros Sx Sy Sz Nx Ny Nz.
  destruct (nonempty_In x Nx) as [a0 Ha0].
  destruct (nonempty_In y Ny) as [b0 Hb0].
  destruct (nonempty_In z Nz) as [c0 Hc0].
  split_and!; symmetry; apply unique_sorted_version_unique; (split; [done|]);
    intros v.
  - rewrite col0_In. split.
    + intros Hv. exists b0, c0. by apply grid_nodes_In.
    + intros (b & c & Hin). by apply grid_nodes_In in Hin as (? & _ & _).
  - rewrite col1_In. split.
    + intros Hv. exists a0, c0. by apply grid_nodes_In.
    + intros (a & c & Hin). by apply grid_nodes_In in Hin as (_ & ? & _).
  - rewrite col2_In. split.
    + intros Hv. exists a0, b0. by apply grid_nodes_In.
    + intros (a & b & Hin). by apply grid_nodes_In in Hin as (_ & _ & ?).
Qed.

End RectilinearGridMore.

(** X1: after [_from_arrays] the dimensions are the numbers of distinct
    values of the three arrays, and [points] has as many rows as the
    product of the dimensions. *)
Theorem RG_dimensions_count_the_points (x y z : np.ndarray)
        (self : vtkRectilinearGrid.t) :
  let g := RectilinearGrid._from_arrays x y z self in
  exists pts,
    RectilinearGrid.points g = np.ArrN3 pts
    /\ Grid.dimensions g
       = (count_distinct (np.ravel x), count_distinct (np.ravel y),
          count_distinct (np.ravel z))
    /\ Z.of_nat (length pts)
       = count_distinct (np.ravel x) * count_distinct (np.ravel y)
         * count_distinct (np.ravel z).
Proof.
  intros g. eexists. rewrite RG_points_nodes. split; [reflexivity|].
  destruct (RG_from_arrays_coordinates x y z self) as (Hx & Hy & Hz).
  fold g in Hx, Hy, Hz. rewrite Hx, Hy, Hz. cbn [np.ravel].
  rewrite grid_nodes_length, <- !length_unique. split; [reflexivity | lia].
Qed.

(** X2: the setter of [x] replaces the [x] axis and nothing else: the
    dimensions, the other axes and the attached data stay, and [points]
    has the rows of the new axis, whatever the dimensions say.  After
    [x] of a grid with dimensions (2, 1, 1) is set to three values,
    [points] has three rows. *)
Theorem RG_set_x_leaves_dimensions (coords : np.ndarray)
        (self : vtkRectilinearGrid.t) :
  let g := (RectilinearGrid.set_x coords self).1 in
  (Grid.dimensions g = Grid.dimensions self
   /\ RectilinearGrid.y g = RectilinearGrid.y self
   /\ RectilinearGrid.z g = RectilinearGrid.z self
   /\ vtkRectilinearGrid.attached g = vtkRectilinearGrid.attached self
   /\ exists pts,
       RectilinearGrid.points g = np.ArrN3 pts
       /\ length pts
          = (length (np.ravel coords)
             * length (np.ravel (RectilinearGrid.y self))
             * length (np.ravel (RectilinearGrid.z self)))%nat) /\
  let g0 := RectilinearGrid._from_arrays (np.Arr1 [0; 1]) (np.Arr1 [0])
              (np.Arr1 [0]) vtkRectilinearGrid.new in
  let g1 := (RectilinearGrid.set_x (np.Arr1 [0; 1; 2]) g0).1 in
  Grid.dimensions g1 = (2, 1, 1) /\
  RectilinearGrid.points g1 = np.ArrN3 [(0, 0, 0); (1, 0, 0); (2, 0, 0)].
Proof.
  cbv zeta. split; [|split; reflexivity].
  repeat (split; [reflexivity|]).
  eexists. rewrite RG_points_nodes. split; [reflexivity|].
  by rewrite grid_nodes_length.
Qed.

(** X3: in [points] of a rectilinear grid the first axis changes fastest:
    the row [i + nx * (j + ny * k)], with [nx] and [ny] the lengths of the
    [x] and [y] axes, is [(x[i], y[j], z[k])]. *)
Theorem RG_points_order (g : vtkRectilinearGrid.t) (i j k : nat) (a b c : Z) :
  np.ravel (RectilinearGrid.x g) !! i = Some a ->
  np.ravel (RectilinearGrid.y g) !! j = Some b ->
  np.ravel (RectilinearGrid.z g) !! k = Some c ->
  exists pts,
    RectilinearGrid.points g = np.ArrN3 pts
    /\ pts !! (i + length (np.ravel (RectilinearGrid.x g))
                   * (j + length (np.ravel (RectilinearGrid.y g)) * k))%nat
       = Some (a, b, c).
Proof.
  intros Hi Hj Hk. eexists. rewrite RG_points_nodes.
  split; [reflexivity|]. by apply grid_nodes_lookup.
Qed.

(** The row 1 + 2 * (2 + 3 * 1) = 11 of the grid with the axes [0, 1],
    [10, 20, 30] and [5, 6]. *)
Lemma RG_points_order_witness :
  let g := RectilinearGrid._from_arrays (np.Arr1 [0; 1])
             (np.Arr1 [10; 20; 30]) (np.Arr1 [5; 6])
             vtkRectilinearGrid.new in
  exists pts,
    RectilinearGrid.points g = np.ArrN3 pts
    /\ pts !! 11%nat = Some (1, 30, 6).
Proof.
  cbv zeta.
  exact (RG_points_order
           (RectilinearGrid._from_arrays (np.Arr1 [0; 1])
              (np.Arr1 [10; 20; 30]) (np.Arr1 [5; 6])
              vtkRectilinearGrid.new)
           1 2 1 1 30 6 eq_refl eq_refl eq_refl).
Defined.

(** X4: assigning the [points] of a rectilinear grid with strictly
    increasing, non-empty axes to the [points] of any rectilinear grid
    gives that grid the same axes, the matching dimensions and the same
    [points]. *)
Theorem RG_points_round_trip (g self : vtkRectilinearGrid.t) :
  axes_strictly_increasing g ->
  np.ravel (RectilinearGrid.x g) <> [] ->
  np.ravel (RectilinearGrid.y g) <> [] ->
  np.ravel (RectilinearGrid.z g) <> [] ->
  exists self',
    RectilinearGrid.set_points (PyNdarray (RectilinearGrid.points g)) self
    = (self', Ok tt)
    /\ RectilinearGrid.x self' = np.Arr1 (np.ravel (RectilinearGrid.x g))
    /\ RectilinearGrid.y self' = np.Arr1 (np.ravel (RectilinearGrid.y g))
    /\ RectilinearGrid.z self' = np.Arr1 (np.ravel (RectilinearGrid.z g))
    /\ Grid.dimensions self'
       = (Z.of_nat (length (np.ravel (RectilinearGrid.x g))),
          Z.of_nat (length (np.ravel (RectilinearGrid.y g))),
          Z.of_nat (length (np.ravel (RectilinearGrid.z g))))
    /\ RectilinearGrid.points self' = RectilinearGrid.points g.
Proof.
  intros (Sx & Sy & Sz) Nx Ny Nz.
  unfold RectilinearGrid.x, RectilinearGrid.y, RectilinearGrid.z,
    vtk_to_numpy, vtkRectilinearGrid.GetXCoordinates,
    vtkRectilinearGrid.GetYCoordinates, vtkRectilinearGrid.GetZCoordinates
    in *.
  eexists. rewrite (RG_points_nodes g), RG_set_points_array.
  split; [reflexivity|].
  destruct (unique_columns_of_grid_nodes _ _ _ Sx Sy Sz Nx Ny Nz)
    as (Ux & Uy & Uz).
  rewrite RG_points_nodes.
  unfold RectilinearGrid._from_arrays, numpy_to_vtk. cbn.
  rewrite !Ux, !Uy, !Uz, !unique_of_sorted by done. done.
Qed.

Lemma RG_points_round_trip_witness :
  let g := RectilinearGrid._from_arrays (np.Arr1 [3; 1; 1])
             (np.Arr1 [10; 20]) (np.Arr1 [5]) vtkRectilinearGrid.new in
  exists self',
    RectilinearGrid.set_points (PyNdarray (RectilinearGrid.points g))
      vtkRectilinearGrid.new = (self', Ok tt)
    /\ RectilinearGrid.x self' = np.Arr1 [1; 3]
    /\ RectilinearGrid.y self' = np.Arr1 [10; 20]
    /\ RectilinearGrid.z self' = np.Arr1 [5]
    /\ Grid.dimensions self' = (2, 2, 1).
Proof.
  cbv zeta.
  destruct (RG_points_round_trip
              (RectilinearGrid._from_arrays (np.Arr1 [3; 1; 1])
                 (np.Arr1 [10; 20]) (np.Arr1 [5]) vtkRectilinearGrid.new)
              vtkRectilinearGrid.new)
    as (self' & H1 & H2 & H3 & H4 & H5 & _).
  - apply RG_from_arrays_axes.
  - discriminate.
  - discriminate.
  - discriminate.
  - exists self'. split; [exact H1|]. split; [exact H2|].
    split; [exact H3|]. split; [exact H4|]. exact H5.
Defined.

(** X5: a rectilinear grid constructed from the [x], [y] and [z] of a
    grid that was constructed from arrays is that grid again. *)
Theorem RG_construct_from_own_axes `{Toolkit} (xs ys zs : np.ndarray) :
  exists g,
    RectilinearGrid.__init__ [PyNdarray xs; PyNdarray ys; PyNdarray zs] = Ok g
    /\ RectilinearGrid.__init__
         [PyNdarray (RectilinearGrid.x g); PyNdarray (RectilinearGrid.y g);
          PyNdarray (RectilinearGrid.z g)] = Ok g.
Proof.
  eexists. rewrite !RG_init_three. split; [reflexivity|].
  unfold RectilinearGrid._from_arrays, RectilinearGrid.x, RectilinearGrid.y,
    RectilinearGrid.z, vtk_to_numpy, numpy_to_vtk. cbn.
  by rewrite !unique_idempotent.
Qed.

(** X6: the constructor of a rectilinear grid ignores its arguments, and
    gives the empty grid without an error, when there are none or more
    than three of them, and when there are two or three that are not all
    arrays. *)
Theorem RG_init_ignores_arguments `{Toolkit} (args : list PyObj) :
  length args <> 1%nat ->
  (length args = 2%nat \/ length args = 3%nat ->
   forallb is_ndarray args = false) ->
  RectilinearGrid.__init__ args = Ok vtkRectilinearGrid.new.
Proof.
  intros H1 H23. unfold RectilinearGrid.__init__.
  destruct (Nat.eqb_spec (length args) 1); [done|].
  destruct (Nat.eqb_spec (length args) 3) as [E3|N3];
    destruct (Nat.eqb_spec (length args) 2) as [E2|N2]; cbn [orb];
    try (rewrite H23 by auto; reflexivity).
  reflexivity.
Qed.

(** Two arrays and a tuple. *)
Lemma RG_init_ignores_arguments_witness :
  @RectilinearGrid.__init__ no_files
    [PyNdarray (np.Arr1 [0; 1]); PyNdarray (np.Arr1 [0; 1]);
     PyTuple [PyNum 0; PyNum 1]]
  = Ok vtkRectilinearGrid.new.
Proof.
  apply (@RG_init_ignores_arguments no_files); [cbn; lia | reflexivity].
Defined.

(** X7: a single argument that is neither a toolkit grid nor a string, a
    single array for one, is ignored: the grid is empty. *)
Theorem RG_init_ignores_a_single_array `{Toolkit} (a : PyObj) :
  (forall g, a <> PyVtkRectilinearGrid g) -> (forall s, a <> PyStr s) ->
  RectilinearGrid.__init__ [a] = Ok vtkRectilinearGrid.new.
Proof.
  intros Hg Hs. destruct a; try reflexivity.
  - by destruct (Hs s).
  - by destruct (Hg g).
Qed.

Lemma RG_init_ignores_a_single_array_witness :
  @RectilinearGrid.__init__ no_files [PyNdarray (np.Arr1 [0; 1; 2])]
  = Ok vtkRectilinearGrid.new.
Proof.
  apply (@RG_init_ignores_a_single_array no_files); intros; discriminate.
Defined.

(** X8: an array of one axis assigned to [points] is refused by the array
    library, which finds too many indices, and the grid is unchanged; so
    for both classes. *)
Theorem set_points_one_axis_array (v : list Z) :
  (forall self,
     RectilinearGrid.set_points (PyNdarray (np.Arr1 v)) self
     = (self, Err (Surfaced NumpyIndexError))) /\
  (forall self,
     UniformGrid.set_points (PyNdarray (np.Arr1 v)) self
     = (self, Err (Surfaced NumpyIndexError))).
Proof. split; reflexivity. Qed.

Section MethodSteps.

Lemma bind_lift {S A B : Type} (r : Result A) (k : A -> Method S B) (s : S) :
  (lift r ≫= k) s = match r with Ok a => k a s | Err e => (s, Err e) end.
Proof. by destruct r. Qed.

Lemma bind_modify {S B : Type} (f : S -> S) (k : unit -> Method S B) (s : S) :
  (modify f ≫= k) s = k tt (f s).
Proof. reflexivity. Qed.

Lemma surfaces_not_raised {A : Type} (r : Result A) (e : OwnError) :
  surfaces r -> r <> Err (Raised e).
Proof. by destruct r as [a|[e'|e']]. Qed.

End MethodSteps.

(** One step of a method: the result of the first operation is a value,
    with which the method goes on, or an error that surfaces. *)
Ltac lift_step :=
  rewrite bind_lift;
  match goal with
  | |- context [match ?r with Ok _ => _ | Err _ => _ end] =>
      let E := fresh "E" in
      destruct r as [?|[?|?]] eqn:E;
      [ | exfalso; revert E; apply surfaces_not_raised; auto with surfaces | ]
  end.

(** X10: for an array with at least one row, the setter of [points] of a
    uniform grid stores the numbers of distinct values of the columns as
    dimensions and the minima of the columns as origin, whether it
    succeeds or not; when it fails, the error is the toolkit's refusal
    of the spacing, and the spacing is the one from before. *)
Theorem UG_set_points_stores_dimensions_and_origin
        (rows : list (Z * Z * Z)) (self : vtkImageData.t) :
  rows <> [] ->
  exists self' r ox oy oz,
    UniformGrid.set_points (PyNdarray (np.ArrN3 rows)) self = (self', r)
    /\ Grid.dimensions self'
       = (count_distinct (col0 rows), count_distinct (col1 rows),
          count_distinct (col2 rows))
    /\ UniformGrid.origin self' = (ox, oy, oz)
    /\ minimum_of ox (col0 rows)
    /\ minimum_of oy (col1 rows)
    /\ minimum_of oz (col2 rows)
    /\ vtkImageData.attached self' = vtkImageData.attached self
    /\ (r = Ok tt \/
        (r = Err (Surfaced VtkTypeError)
         /\ UniformGrid.spacing self' = UniformGrid.spacing self)).
Proof.
  intros Hrows.
  assert (forall f : Z * Z * Z -> Z, np.unique (map f rows) <> []) as Hne.
  { intros f Hu. destruct rows as [|p rows]; [done|].
    assert (In (f p) (np.unique (map f (p :: rows)))) as Hin
      by (apply unique_In; by left).
    by rewrite Hu in Hin. }
  destruct (min_spec _ (Hne (fun '(a, _, _) => a))) as (ox & Hox & Mx).
  destruct (min_spec _ (Hne (fun '(_, b, _) => b))) as (oy & Hoy & My).
  destruct (min_spec _ (Hne (fun '(_, _, c) => c))) as (oz & Hoz & Mz).
  fold (col0 rows) in Hox, Mx. fold (col1 rows) in Hoy, My.
  fold (col2 rows) in Hoz, Mz.
  apply minimum_of_unique in Mx, My, Mz.
  assert (exists self' r,
    UniformGrid.set_points (PyNdarray (np.ArrN3 rows)) self = (self', r)
    /\ vtkImageData.Dimensions self'
       = (Z.of_nat (length (np.unique (col0 rows))),
          Z.of_nat (length (np.unique (col1 rows))),
          Z.of_nat (length (np.unique (col2 rows))))
    /\ vtkImageData.Origin self' = (ox, oy, oz)
    /\ vtkImageData.attached self' = vtkImageData.attached self
    /\ (r = Ok tt \/
        (r = Err (Surfaced VtkTypeError)
         /\ vtkImageData.Spacing self' = vtkImageData.Spacing self)))
    as (self' & r & Hset & Hd & Ho & Ha & Hr).
  { unfold UniformGrid.set_points.
    change (np.column 0 (np.ArrN3 rows)) with (Ok (col0 rows)).
    change (np.column 1 (np.ArrN3 rows)) with (Ok (col1 rows)).
    change (np.column 2 (np.ArrN3 rows)) with (Ok (col2 rows)).
    rewrite !bind_lift_ok, Hox, bind_lift_ok, Hoy, bind_lift_ok, Hoz,
      bind_lift_ok.
    unfold UniformGrid._from_specs. cbn.
    destruct (np.unique (np.diff (np.unique (col0 rows)))) as [|vx [|? ?]];
      cbn; try (eexists _, _; split; [reflexivity|]; cbn;
                split_and!; first [done | by left | by right]).
    destruct (np.unique (np.diff (np.unique (col1 rows)))) as [|vy [|? ?]];
      cbn; try (eexists _, _; split; [reflexivity|]; cbn;
                split_and!; first [done | by left | by right]).
    destruct (np.unique (np.diff (np.unique (col2 rows)))) as [|vz [|? ?]];
      cbn; eexists _, _; (split; [reflexivity|]); cbn;
      split_and!; first [done | by left | by right]. }
  exists self', r, ox, oy, oz. split; [exact Hset|].
  split.
  { change (Grid.dimensions self') with (vtkImageData.Dimensions self').
    rewrite Hd. by rewrite !length_unique. }
  split; [exact Ho|]. split; [exact Mx|]. split; [exact My|].
  split; [exact Mz|]. split; [exact Ha | exact Hr].
Qed.

(** A single point: the dimensions (1, 1, 1) and the origin are stored,
    and the toolkit refuses the empty spacing. *)
Lemma UG_set_points_stores_dimensions_and_origin_witness :
  exists self' r,
    UniformGrid.set_points (PyNdarray (np.ArrN3 [(4, 5, 6)]))
      vtkImageData.new = (self', r)
    /\ Grid.dimensions self'
       = (count_distinct [4], count_distinct [5], count_distinct [6])
    /\ (r = Ok tt \/
        (r = Err (Surfaced VtkTypeError)
         /\ UniformGrid.spacing self' = (1, 1, 1))).
Proof.
  destruct (UG_set_points_stores_dimensions_and_origin [(4, 5, 6)]
              vtkImageData.new ltac:(discriminate))
    as (self' & r & ox & oy & oz & H1 & H2 & _ & _ & _ & _ & _ & H3).
  exists self', r. split; [exact H1|]. split; [exact H2 | exact H3].
Defined.

Section CastMore.

Lemma unique_sampled_axis_zero (o : Z) (n : nat) :
  np.unique (sampled_axis o 0 (S n)) = [o].
Proof.
  symmetry. apply unique_sorted_version_unique. split.
  - repeat constructor.
  - intros v. split.
    + intros [<-|[]]. rewrite sampled_axis_S. by left.
    + intros Hv. apply sampled_axis_In in Hv as (i & _ & ->). left. lia.
Qed.

End CastMore.

(** X12: an axis of a uniform grid with spacing 0 is cast to an axis of
    one coordinate, the origin of that axis, and the dimension of the
    rectilinear grid on that axis is 1, however many nodes the uniform
    grid has there. *)
Theorem UG_cast_collapses_zero_spacing `{Toolkit}
        (nx ny nz ox oy oz dy dz : Z) (d : Attached) :
  1 <= nx -> 1 <= ny -> 1 <= nz ->
  let g := vtkImageData.mk (nx, ny, nz) (ox, oy, oz) (0, dy, dz) d in
  exists rg,
    UniformGrid.cast_to_rectilinear_grid g = (g, Ok rg)
    /\ RectilinearGrid.x rg = np.Arr1 [ox]
    /\ (Grid.dimensions rg).1.1 = 1.
Proof.
  intros Hx Hy Hz g. unfold UniformGrid.cast_to_rectilinear_grid.
  rewrite (UG_gen_coords_ok g 0), (UG_gen_coords_ok g 1),
    (UG_gen_coords_ok g 2) by done.
  cbn [mbind result_bind]. rewrite RG_init_three.
  cbn [mbind result_bind mret result_ret].
  eexists. split; [reflexivity|].
  unfold RectilinearGrid._from_arrays, numpy_to_vtk, g.
  cbn [np.ravel UniformGrid.item3 vtkImageData.Dimensions vtkImageData.Origin
       vtkImageData.Spacing].
  destruct (Z.to_nat nx) as [|m] eqn:E; [lia|].
  rewrite unique_sampled_axis_zero. split; reflexivity.
Qed.

(** Three nodes on the first axis, with spacing 0. *)
Lemma UG_cast_collapses_zero_spacing_witness :
  let g := vtkImageData.mk (3, 2, 2) (7, 0, 0) (0, 1, 1) no_attached in
  exists rg,
    @UniformGrid.cast_to_rectilinear_grid no_files g = (g, Ok rg)
    /\ RectilinearGrid.x rg = np.Arr1 [7]
    /\ (Grid.dimensions rg).1.1 = 1.
Proof.
  apply (@UG_cast_collapses_zero_spacing no_files 3 2 2 7 0 0 1 1
           no_attached); lia.
Defined.

(** X13: a uniform grid constructed from specifications has the
    dimensions given first, the spacing given second and the origin given
    third; without an origin the origin is (0, 0, 0), and without a
    spacing the spacing is (1, 1, 1). *)
Theorem UG_init_from_specifications `{Toolkit}
        (nx ny nz dx dy dz ox oy oz : Z) :
  let dims := PyTuple [PyNum nx; PyNum ny; PyNum nz] in
  let spacing := PyTuple [PyNum dx; PyNum dy; PyNum dz] in
  let origin := PyTuple [PyNum ox; PyNum oy; PyNum oz] in
  (exists g, UniformGrid.__init__ [dims; spacing; origin] = Ok g
             /\ Grid.dimensions g = (nx, ny, nz)
             /\ UniformGrid.spacing g = (dx, dy, dz)
             /\ UniformGrid.origin g = (ox, oy, oz)) /\
  (exists g, UniformGrid.__init__ [dims; spacing] = Ok g
             /\ Grid.dimensions g = (nx, ny, nz)
             /\ UniformGrid.spacing g = (dx, dy, dz)
             /\ UniformGrid.origin g = (0, 0, 0)) /\
  (exists g, UniformGrid.__init__ [dims] = Ok g
             /\ Grid.dimensions g = (nx, ny, nz)
             /\ UniformGrid.spacing g = (1, 1, 1)
             /\ UniformGrid.origin g = (0, 0, 0)).
Proof. cbv zeta. split_and!; eexists; (split; [reflexivity|]); done. Qed.

(** X14: the setters of [dimensions], [origin] and [spacing] change
    [self] in the one field, to three numbers, or not at all: when the
    argument has fewer than three items or an item is not a number, the
    error surfaces and [self] is as before. *)
Theorem UG_setters_change_all_or_nothing (v : PyObj) (self : vtkImageData.t) :
  ((exists a b c,
      Grid.set_dimensions v self
      = (vtkImageData.SetDimensions a b c self, Ok tt)) \/
   (exists e, Grid.set_dimensions v self = (self, Err (Surfaced e)))) /\
  ((exists a b c,
      UniformGrid.set_origin v self
      = (vtkImageData.SetOrigin a b c self, Ok tt)) \/
   (exists e, UniformGrid.set_origin v self = (self, Err (Surfaced e)))) /\
  ((exists a b c,
      UniformGrid.set_spacing v self
      = (vtkImageData.SetSpacing a b c self, Ok tt)) \/
   (exists e, UniformGrid.set_spacing v self = (self, Err (Surfaced e)))).
Proof.
  split_and!.
  - unfold Grid.set_dimensions.
    do 6 (lift_step; [|by right; eexists]). left. by eexists _, _, _.
  - unfold UniformGrid.set_origin.
    do 6 (lift_step; [|by right; eexists]). left. by eexists _, _, _.
  - unfold UniformGrid.set_spacing.
    do 6 (lift_step; [|by right; eexists]). left. by eexists _, _, _.
Qed.

(** X15: [_from_specs] ends with the dimensions, the origin and the
    spacing set to numbers from its arguments, or with an error that
    surfaces; in the second case the spacing is the one from before, and
    so is all of [self] when an argument has fewer than three items.  The
    attached data is never changed. *)
Theorem UG_from_specs_outcomes (dims spacing origin : PyObj)
        (self : vtkImageData.t) :
  exists self' r,
    UniformGrid._from_specs dims spacing origin self = (self', r)
    /\ vtkImageData.attached self' = vtkImageData.attached self
    /\ ((r = Ok tt /\
         exists nx ny nz ox oy oz dx dy dz,
           self' = vtkImageData.mk (nx, ny, nz) (ox, oy, oz) (dx, dy, dz)
                     (vtkImageData.attached self)) \/
        (exists e, r = Err (Surfaced e)
                   /\ UniformGrid.spacing self' = UniformGrid.spacing self
                   /\ (is_Some (error_of (py_getitem dims 2)) \/
                       is_Some (error_of (py_getitem spacing 2)) \/
                       is_Some (error_of (py_getitem origin 2)) ->
                       self' = self))).
Proof.
  unfold UniformGrid._from_specs.
  do 9 (lift_step;
        [|eexists _, _; split; [reflexivity|]; split; [done|];
          right; eexists; split; [done|]; split; done]).
  do 3 (lift_step;
        [|eexists _, _; split; [reflexivity|]; split; [done|];
          right; eexists; split; [done|]; split; done]).
  rewrite bind_modify.
  do 3 (lift_step;
        [|eexists _, _; split; [reflexivity|]; split; [done|];
          right; eexists; split; [done|]; split; [done|];
          intros [[? Hs]|[[? Hs]|[? Hs]]]; discriminate Hs]).
  rewrite bind_modify.
  do 3 (lift_step;
        [|eexists _, _; split; [reflexivity|]; split; [done|];
          right; eexists; split; [done|]; split; [done|];
          intros [[? Hs]|[[? Hs]|[? Hs]]]; discriminate Hs]).
  eexists _, _. split; [reflexivity|]. split; [done|].
  left. split; [done|]. by eexists _, _, _, _, _, _, _, _, _.
Qed.

(** X16: a uniform grid cannot be constructed from a single tuple of
    fewer than three items: the index error of the tuple surfaces. *)
Theorem UG_init_short_dimensions `{Toolkit} (items : list PyObj) :
  (length items < 3)%nat ->
  UniformGrid.__init__ [PyTuple items] = Err (Surfaced PyIndexError).
Proof.
  intros Hlen. destruct items as [|a [|b [|c items]]]; simpl in Hlen;
    [reflexivity | | | lia].
  - unfold UniformGrid.__init__, UniformGrid._from_specs. cbn.
    reflexivity.
  - unfold UniformGrid.__init__, UniformGrid._from_specs. cbn.
    reflexivity.
Qed.

Lemma UG_init_short_dimensions_witness :
  @UniformGrid.__init__ no_files [PyTuple [PyNum 10; PyNum 10]]
  = Err (Surfaced PyIndexError).
Proof.
  apply (@UG_init_short_dimensions no_files [PyNum 10; PyNum 10]).
  cbn. lia.
Defined.

(** X17: the constructor of a uniform grid ignores its arguments, and
    gives the empty grid without an error, when there are none or more
    than three of them. *)
Theorem UG_init_ignores_arguments `{Toolkit} (args : list PyObj) :
  length args = 0%nat \/ (4 <= length args)%nat ->
  UniformGrid.__init__ args = Ok vtkImageData.new.
Proof.
  intros Hlen. unfold UniformGrid.__init__. cbv zeta.
  destruct (Nat.eqb_spec (length args) 1); [lia|].
  destruct (Nat.ltb_spec 1 (length args)),
    (Nat.ltb_spec (length args) 4); cbn [andb]; try reflexivity.
  lia.
Qed.

Lemma UG_init_ignores_arguments_witness :
  @UniformGrid.__init__ no_files
    [PyTuple [PyNum 2; PyNum 2; PyNum 2]; PyTuple [PyNum 1; PyNum 1; PyNum 1];
     PyTuple [PyNum 0; PyNum 0; PyNum 0]; PyNone]
  = Ok vtkImageData.new.
Proof.
  apply (@UG_init_ignores_arguments no_files). right. cbn. lia.
Defined.

(** * The uniform grid on binary64 numbers *)

Section Float64Arrays.

Import PrimFloat.
Local Open Scope float_scope.

Lemma f64_cumsum_from_repeat (d : float) (m : nat) : forall acc,
  Float64.np.cumsum_from acc (repeat d m)
  = map (fun i => Float64.sum_from acc d (S i)) (seq 0 m).
Proof.
  induction m as [|m IH]; intros acc; [done|].
  cbn [repeat Float64.np.cumsum_from seq map]. f_equal.
  rewrite IH, <- seq_shift, map_map. reflexivity.
Qed.

(** An axis as the [points] property computes it. *)
Lemma f64_insert_cumsum_full (o d : float) (m : nat) :
  Float64.np.add_scalar
    (Float64.np.insert0 (Float64.np.cumsum (repeat d m)) 0) o
  = map (fun i => Float64.running_sum d i + o) (seq 0 (S m)).
Proof.
  unfold Float64.np.add_scalar, Float64.np.insert0.
  cbn [seq map]. f_equal.
  destruct m as [|m]; [done|].
  cbn [repeat Float64.np.cumsum seq map]. f_equal.
  rewrite f64_cumsum_from_repeat, <- !seq_shift, !map_map. reflexivity.
Qed.

(** An axis as [gen_coords] computes it. *)
Lemma f64_cumsum_insert_full (o d : float) (m : nat) :
  Float64.np.add_scalar
    (Float64.np.cumsum (Float64.np.insert0 (repeat d m) 0)) o
  = Float64.sampled_coordinates o d (S m).
Proof.
  unfold Float64.np.add_scalar, Float64.np.insert0,
    Float64.sampled_coordinates.
  cbn [Float64.np.cumsum seq map]. f_equal.
  rewrite f64_cumsum_from_repeat, <- seq_shift, !map_map. reflexivity.
Qed.

Lemma f64_full_ok (n : Z) (v : float) :
  (1 <= n)%Z ->
  Float64.np.full (n - 1) v = Ok (repeat v (Z.to_nat (n - 1))).
Proof.
  intros Hn. unfold Float64.np.full.
  destruct (Z.ltb_spec (n - 1) 0); [lia | done].
Qed.

Lemma f64_c_app (a1 b1 c1 : list float) : forall a2 b2 c2,
  length b1 = length a1 -> length c1 = length a1 ->
  Float64.np.c_ (a1 ++ a2) (b1 ++ b2) (c1 ++ c2) =
  Float64.np.c_ a1 b1 c1 ++ Float64.np.c_ a2 b2 c2.
Proof.
  revert b1 c1. induction a1 as [|x a1 IH]; intros [|y b1] [|z c1] a2 b2 c2;
    simpl; intros Hb Hc; try discriminate; [done|].
  f_equal. apply IH; congruence.
Qed.

Lemma f64_c_map {A : Type} (f g h : A -> float) (l : list A) :
  Float64.np.c_ (map f l) (map g l) (map h l)
  = map (fun i => (f i, g i, h i)) l.
Proof. induction l; simpl; congruence. Qed.

Lemma f64_c_flat_map {A : Type} (f g h : A -> list float) (l : list A) :
  (forall a, length (g a) = length (f a)) ->
  (forall a, length (h a) = length (f a)) ->
  Float64.np.c_ (flat_map f l) (flat_map g l) (flat_map h l) =
  flat_map (fun a => Float64.np.c_ (f a) (g a) (h a)) l.
Proof.
  intros Hg Hh. induction l as [|a l IH]; simpl; [done|].
  rewrite f64_c_app by done. by rewrite IH.
Qed.

Lemma f64_map_nth_seq {B : Type} (f : float -> B) (l : list float) :
  map (fun i => f (nth i l 0)) (seq 0 (length l)) = map f l.
Proof.
  induction l as [|a l IH]; simpl; [done|].
  f_equal. rewrite <- seq_shift, map_map. exact IH.
Qed.

Lemma f64_flat_map_nth_seq {B : Type} (f : float -> list B)
      (l : list float) :
  flat_map (fun i => f (nth i l 0)) (seq 0 (length l)) = flat_map f l.
Proof.
  induction l as [|a l IH]; simpl; [done|].
  f_equal. rewrite <- seq_shift, flat_map_concat_map, map_map.
  rewrite <- flat_map_concat_map. exact IH.
Qed.

Lemma f64_c_ravel_meshgrid (x y z : list float) :
  (let '(xx, yy, zz) := Float64.np.meshgrid_ij x y z in
   Float64.np.c_ (Float64.np.ravel_F xx) (Float64.np.ravel_F yy)
                 (Float64.np.ravel_F zz)) =
  Float64.grid_nodes x y z.
Proof.
  unfold Float64.grid_nodes, Float64.np.meshgrid_ij, Float64.np.ravel_F.
  cbn [Float64.np.shape Float64.np.item].
  rewrite f64_c_flat_map.
  - rewrite <- (f64_flat_map_nth_seq
      (fun zk => flat_map (fun yj => map (fun xi => (xi, yj, zk)) x) y) z).
    apply flat_map_ext. intros k.
    rewrite f64_c_flat_map.
    + rewrite <- (f64_flat_map_nth_seq
        (fun yj => map (fun xi => (xi, yj, nth k z 0)) x) y).
      apply flat_map_ext. intros j.
      rewrite f64_c_map.
      apply (f64_map_nth_seq (fun xi => (xi, nth j y 0, nth k z 0))).
    + intros. by rewrite !length_map.
    + intros. by rewrite !length_map.
  - intros k.
    rewrite !(length_flat_map_const _ (length x)); [done|..];
      intros; by rewrite length_map, length_seq.
  - intros k.
    rewrite !(length_flat_map_const _ (length x)); [done|..];
      intros; by rewrite length_map, length_seq.
Qed.

Lemma f64_grid_nodes_length (x y z : list float) :
  length (Float64.grid_nodes x y z)
  = (length x * length y * length z)%nat.
Proof.
  unfold Float64.grid_nodes.
  rewrite (length_flat_map_const _ (length x * length y)%nat); [done|].
  intros zk. rewrite (length_flat_map_const _ (length x)); [done|].
  intros yj. by rewrite length_map.
Qed.

Lemma f64_grid_nodes_lookup (x y z : list float) (i j k : nat)
      (a b c : float) :
  x !! i = Some a -> y !! j = Some b -> z !! k = Some c ->
  Float64.grid_nodes x y z !! (i + length x * (j + length y * k))%nat
  = Some (a, b, c).
Proof.
  intros Hx Hy Hz. unfold Float64.grid_nodes.
  pose proof (lookup_lt_Some _ _ _ Hx) as Hi.
  pose proof (lookup_lt_Some _ _ _ Hy) as Hj.
  replace (i + length x * (j + length y * k))%nat
    with ((i + length x * j) + (length x * length y) * k)%nat by lia.
  assert (forall zk : float, length (flat_map (fun yj : float =>
            map (fun xi : float => (xi, yj, zk)) x) y)
          = (length x * length y)%nat) as Hblock.
  { intros zk. apply length_flat_map_const. intros. by rewrite length_map. }
  rewrite (lookup_flat_map_block _ _ z Hblock k _ c Hz) by nia.
  assert (forall yj : float,
            length (map (fun xi : float => (xi, yj, c)) x) = length x)
    as Hrow by (intros; by rewrite length_map).
  rewrite (lookup_flat_map_block _ _ y Hrow j i b Hy Hi).
  rewrite list_lookup_fmap. by rewrite Hx.
Qed.

(** Sorting and [unique] only rearrange and drop elements. *)
Lemma f64_insert_sorted_In (v a : float) (l : list float) :
  In v (Float64.np.insert_sorted a l) <-> v = a \/ In v l.
Proof.
  induction l as [|h t IH]; simpl.
  - intuition.
  - destruct (Float64.np.sorts_before a h); simpl; rewrite ?IH; intuition.
Qed.

Lemma f64_sort_In (v : float) (l : list float) :
  In v (Float64.np.sort l) <-> In v l.
Proof.
  induction l as [|h t IH]; simpl; [tauto|].
  rewrite f64_insert_sorted_In, IH. intuition.
Qed.

Lemma f64_keep_changes_In (v : float) (t : list float) : forall h,
  In v (Float64.np.keep_changes h t) -> In v t.
Proof.
  induction t as [|a t IH]; intros h; [done|].
  cbn [Float64.np.keep_changes].
  destruct (a =? h).
  - intros Hv. right. by apply (IH h).
  - intros [<-|Hv]; [by left|]. right. by apply (IH a).
Qed.

Lemma f64_unique_In (v : float) (a : list float) :
  In v (Float64.np.unique a) -> In v a.
Proof.
  unfold Float64.np.unique. intros Hv. apply f64_sort_In.
  destruct (Float64.np.sort a) as [|h t]; [done|].
  destruct Hv as [<-|Hv]; [by left|].
  right. by apply (f64_keep_changes_In v t h).
Qed.

Lemma f64_sampled_coordinates_In (o d : float) (n : nat) (v : float) :
  In v (Float64.sampled_coordinates o d n) ->
  exists i, (i < n)%nat /\ v = Float64.sum_from 0 d i + o.
Proof.
  unfold Float64.sampled_coordinates. rewrite in_map_iff.
  intros (i & <- & Hi). apply in_seq in Hi. exists i. split; [lia | done].
Qed.

Lemma f64_points_nodes (nx ny nz : Z) (ox oy oz dx dy dz : float)
      (d : Attached) :
  (1 <= nx)%Z -> (1 <= ny)%Z -> (1 <= nz)%Z ->
  Float64.UniformGrid.points
    (Float64.vtkImageData.mk (nx, ny, nz) (ox, oy, oz) (dx, dy, dz) d)
  = Ok (Float64.grid_nodes
          (map (fun i => Float64.running_sum dx i + ox)
               (seq 0 (Z.to_nat nx)))
          (map (fun j => Float64.running_sum dy j + oy)
               (seq 0 (Z.to_nat ny)))
          (map (fun k => Float64.running_sum dz k + oz)
               (seq 0 (Z.to_nat nz)))).
Proof.
  intros Hx Hy Hz. unfold Float64.UniformGrid.points.
  cbn [Float64.UniformGrid.dimensions Float64.vtkImageData.GetDimensions
       Float64.vtkImageData.Dimensions Float64.UniformGrid.spacing
       Float64.vtkImageData.GetSpacing Float64.vtkImageData.Spacing
       Float64.UniformGrid.origin Float64.vtkImageData.GetOrigin
       Float64.vtkImageData.Origin].
  rewrite !f64_full_ok by done. cbn [mbind result_bind].
  rewrite !f64_insert_cumsum_full.
  replace (S (Z.to_nat (nx - 1))) with (Z.to_nat nx) by lia.
  replace (S (Z.to_nat (ny - 1))) with (Z.to_nat ny) by lia.
  replace (S (Z.to_nat (nz - 1))) with (Z.to_nat nz) by lia.
  rewrite <- f64_c_ravel_meshgrid.
  by destruct (Float64.np.meshgrid_ij _ _ _) as [[? ?] ?].
Qed.

Lemma f64_gen_coords_ok (g : Float64.vtkImageData.t) (i : nat) :
  (1 <= Float64.UniformGrid.item3 (Float64.vtkImageData.Dimensions g) i)%Z ->
  Float64.UniformGrid.gen_coords g i =
  Ok (Float64.sampled_coordinates
        (Float64.UniformGrid.item3 (Float64.vtkImageData.Origin g) i)
        (Float64.UniformGrid.item3 (Float64.vtkImageData.Spacing g) i)
        (Z.to_nat
           (Float64.UniformGrid.item3 (Float64.vtkImageData.Dimensions g) i))).
Proof.
  intros Hn. unfold Float64.UniformGrid.gen_coords.
  unfold Float64.UniformGrid.dimensions, Float64.UniformGrid.spacing,
    Float64.UniformGrid.origin, Float64.vtkImageData.GetDimensions,
    Float64.vtkImageData.GetSpacing, Float64.vtkImageData.GetOrigin.
  rewrite f64_full_ok by done. cbn [mbind result_bind mret result_ret].
  rewrite f64_cumsum_insert_full. do 2 f_equal. lia.
Qed.

End Float64Arrays.

Section Float64Claims.

Import PrimFloat.
Local Open Scope float_scope.

(** C6, as the claim has it, fails: the coordinates are running binary64
    sums of the spacing, not products.  With the spacing 0.1 (the
    binary64 number next to it) and the origin 0, the node (8, 0, 0) of a
    grid with dimensions (9, 1, 1) has the first coordinate
    0.7999999999999999, and [ox + 8 * dx] is 0.8. *)
Lemma C6_running_sum_is_rounded :
  let tenth := 0x1.999999999999ap-4 in
  let g := Float64.vtkImageData.mk (9, 1, 1)%Z (0, 0, 0)
             (tenth, tenth, tenth) no_attached in
  exists pts,
    Float64.UniformGrid.points g = Ok pts
    /\ pts !! 8%nat = Some (0x1.9999999999999p-1, 0, 0)
    /\ 0 + 8 * tenth = 0x1.999999999999ap-1
    /\ (0x1.9999999999999p-1 =? 0 + 8 * tenth) = false
    /\ 0x1.9999999999999p-1 <> 0 + 8 * tenth.
Proof.
  cbv zeta. eexists. split; [reflexivity|].
  split; [reflexivity|]. split; [reflexivity|]. split; [reflexivity|].
  intros Heq.
  apply (f_equal (fun v => v =? 0x1.999999999999ap-1)) in Heq.
  discriminate Heq.
Qed.

(** C6, amended: the [points] property of a uniform grid with dimensions
    [(nx, ny, nz)], spacing [(dx, dy, dz)] and origin [(ox, oy, oz)]
    gives [nx * ny * nz] points, and the node [(i, j, k)], at the place
    [i + nx * (j + ny * k)], has the coordinates
    [(s i dx + ox, s j dy + oy, s k dz + oz)], where [s n d] is the
    running binary64 sum of [n] copies of [d]: 0, [d], [d + d],
    [(d + d) + d], ... *)
Theorem C6_uniform_grid_node_coordinates (nx ny nz : Z)
        (ox oy oz dx dy dz : float) (d : Attached) (i j k : nat) :
  (Z.of_nat i < nx)%Z -> (Z.of_nat j < ny)%Z -> (Z.of_nat k < nz)%Z ->
  exists pts,
    Float64.UniformGrid.points
      (Float64.vtkImageData.mk (nx, ny, nz) (ox, oy, oz) (dx, dy, dz) d)
    = Ok pts
    /\ Z.of_nat (length pts) = (nx * ny * nz)%Z
    /\ pts !! (i + Z.to_nat nx * (j + Z.to_nat ny * k))%nat
       = Some (Float64.running_sum dx i + ox, Float64.running_sum dy j + oy,
               Float64.running_sum dz k + oz).
Proof.
  intros Hi Hj Hk. eexists. rewrite f64_points_nodes by lia.
  split; [reflexivity|]. split.
  - rewrite f64_grid_nodes_length, !length_map, !length_seq. lia.
  - pose proof (f64_grid_nodes_lookup
      (map (fun i => Float64.running_sum dx i + ox) (seq 0 (Z.to_nat nx)))
      (map (fun j => Float64.running_sum dy j + oy) (seq 0 (Z.to_nat ny)))
      (map (fun k => Float64.running_sum dz k + oz) (seq 0 (Z.to_nat nz)))
      i j k) as Hl.
    rewrite !length_map, !length_seq in Hl.
    apply Hl; rewrite list_lookup_fmap, lookup_seq_lt by lia; reflexivity.
Qed.

(** The node (1, 0, 1) of a grid with dimensions (2, 3, 2), spacing
    (0.5, 1, 5) and origin (10, 35, 50). *)
Lemma C6_uniform_grid_node_coordinates_witness :
  exists pts,
    Float64.UniformGrid.points
      (Float64.vtkImageData.mk (2, 3, 2)%Z (10, 35, 50) (0.5, 1, 5)
         no_attached)
    = Ok pts
    /\ Z.of_nat (length pts) = (2 * 3 * 2)%Z
    /\ pts !! (1 + Z.to_nat 2 * (0 + Z.to_nat 3 * 1))%nat
       = Some (Float64.running_sum 0.5 1 + 10, Float64.running_sum 1 0 + 35,
               Float64.running_sum 5 1 + 50).
Proof.
  apply (C6_uniform_grid_node_coordinates 2 3 2 10 35 50 0.5 1 5
           no_attached 1 0 1); lia.
Defined.

(** The empty grid on binary64 numbers: the cast ends with the array
    library's error, as on integers. *)
Lemma f64_cast_of_empty_grid_fails :
  Float64.UniformGrid.cast_to_rectilinear_grid Float64.vtkImageData.new
  = (Float64.vtkImageData.new, Err (Surfaced NumpyValueError)).
Proof. reflexivity. Qed.

(** C8, amended: for a uniform grid whose dimensions are all at least 1,
    the cast gives a rectilinear grid whose axes are sampled from the
    origin, the spacing and the dimensions: each axis is [np.unique] of
    the coordinates [gen_coords] samples, the origin added to the running
    binary64 sums of the spacing, so every coordinate of the axis is one
    of them; its point arrays, cell arrays, field arrays and metadata
    are those of the source; the source is unchanged. *)
Theorem C8_cast_uniform_to_rectilinear (nx ny nz : Z)
        (ox oy oz dx dy dz : float) (d : Attached) :
  (1 <= nx)%Z -> (1 <= ny)%Z -> (1 <= nz)%Z ->
  let g := Float64.vtkImageData.mk (nx, ny, nz) (ox, oy, oz) (dx, dy, dz) d in
  exists rg,
    Float64.UniformGrid.cast_to_rectilinear_grid g = (g, Ok rg)
    /\ Float64.RectilinearGrid.x rg
       = Float64.np.unique (Float64.sampled_coordinates ox dx (Z.to_nat nx))
    /\ Float64.RectilinearGrid.y rg
       = Float64.np.unique (Float64.sampled_coordinates oy dy (Z.to_nat ny))
    /\ Float64.RectilinearGrid.z rg
       = Float64.np.unique (Float64.sampled_coordinates oz dz (Z.to_nat nz))
    /\ (forall v, In v (Float64.RectilinearGrid.x rg) ->
          exists i, (i < Z.to_nat nx)%nat /\ v = Float64.sum_from 0 dx i + ox)
    /\ (forall v, In v (Float64.RectilinearGrid.y rg) ->
          exists j, (j < Z.to_nat ny)%nat /\ v = Float64.sum_from 0 dy j + oy)
    /\ (forall v, In v (Float64.RectilinearGrid.z rg) ->
          exists k, (k < Z.to_nat nz)%nat /\ v = Float64.sum_from 0 dz k + oz)
    /\ point_arrays (Float64.vtkRectilinearGrid.attached rg) = point_arrays d
    /\ cell_arrays (Float64.vtkRectilinearGrid.attached rg) = cell_arrays d
    /\ field_arrays (Float64.vtkRectilinearGrid.attached rg) = field_arrays d
    /\ meta (Float64.vtkRectilinearGrid.attached rg) = meta d.
Proof.
  intros Hx Hy Hz g. unfold Float64.UniformGrid.cast_to_rectilinear_grid.
  rewrite (f64_gen_coords_ok g 0), (f64_gen_coords_ok g 1),
    (f64_gen_coords_ok g 2) by done.
  cbn [mbind result_bind mret result_ret].
  eexists. split; [reflexivity|].
  cbn [Float64.UniformGrid.item3 Float64.vtkImageData.Dimensions
       Float64.vtkImageData.Origin Float64.vtkImageData.Spacing g].
  split; [reflexivity|]. split; [reflexivity|]. split; [reflexivity|].
  split; [intros v Hv; by apply f64_sampled_coordinates_In, f64_unique_In|].
  split; [intros v Hv; by apply f64_sampled_coordinates_In, f64_unique_In|].
  split; [intros v Hv; by apply f64_sampled_coordinates_In, f64_unique_In|].
  cbn. unfold arrays_update. by rewrite !(right_id_L ∅ (∪)).
Qed.

(** The cast of a grid with dimensions (2, 3, 2), spacing (0.5, 1, 5) and
    origin (10, 35, 50). *)
Lemma C8_cast_uniform_to_rectilinear_witness :
  let g := Float64.vtkImageData.mk (2, 3, 2)%Z (10, 35, 50) (0.5, 1, 5)
             no_attached in
  exists rg,
    Float64.UniformGrid.cast_to_rectilinear_grid g = (g, Ok rg)
    /\ Float64.RectilinearGrid.x rg = [10; 10.5]
    /\ Float64.RectilinearGrid.y rg = [35; 36; 37]
    /\ Float64.RectilinearGrid.z rg = [50; 55].
Proof.
  cbv zeta.
  destruct (C8_cast_uniform_to_rectilinear 2 3 2 10 35 50 0.5 1 5
              no_attached ltac:(lia) ltac:(lia) ltac:(lia))
    as (rg & Hc & Hx & Hy & Hz & _).
  exists rg. split; [exact Hc|].
  rewrite Hx, Hy, Hz. split_and!; reflexivity.
Defined.

(** X18: the [x], [y] and [z] properties of a uniform grid are the
    columns of [points], one entry for each node and not one for each
    coordinate of the axis: each has [nx * ny * nz] entries, and the
    entries for the node [(i, j, k)] are its coordinates, the origin
    added to the running binary64 sum of the spacing. *)
Theorem UG_x_y_z_are_columns_of_points (nx ny nz : Z)
        (ox oy oz dx dy dz : float) (d : Attached) (i j k : nat) :
  (Z.of_nat i < nx)%Z -> (Z.of_nat j < ny)%Z -> (Z.of_nat k < nz)%Z ->
  let g := Float64.vtkImageData.mk (nx, ny, nz) (ox, oy, oz) (dx, dy, dz) d in
  let n := (i + Z.to_nat nx * (j + Z.to_nat ny * k))%nat in
  exists xs ys zs,
    Float64.UniformGrid.x g = Ok xs /\ Float64.UniformGrid.y g = Ok ys
    /\ Float64.UniformGrid.z g = Ok zs
    /\ Z.of_nat (length xs) = (nx * ny * nz)%Z
    /\ Z.of_nat (length ys) = (nx * ny * nz)%Z
    /\ Z.of_nat (length zs) = (nx * ny * nz)%Z
    /\ xs !! n = Some (Float64.running_sum dx i + ox)
    /\ ys !! n = Some (Float64.running_sum dy j + oy)
    /\ zs !! n = Some (Float64.running_sum dz k + oz).
Proof.
  intros Hi Hj Hk g n.
  unfold Float64.UniformGrid.x, Float64.UniformGrid.y, Float64.UniformGrid.z,
    g.
  rewrite f64_points_nodes by lia.
  cbn [mbind result_bind mret result_ret].
  pose proof (f64_grid_nodes_lookup
    (map (fun i => Float64.running_sum dx i + ox) (seq 0 (Z.to_nat nx)))
    (map (fun j => Float64.running_sum dy j + oy) (seq 0 (Z.to_nat ny)))
    (map (fun k => Float64.running_sum dz k + oz) (seq 0 (Z.to_nat nz)))
    i j k) as Hl.
  rewrite !length_map, !length_seq in Hl.
  specialize (Hl (Float64.running_sum dx i + ox)
                 (Float64.running_sum dy j + oy)
                 (Float64.running_sum dz k + oz)).
  rewrite !list_lookup_fmap, !lookup_seq_lt in Hl by lia.
  specialize (Hl eq_refl eq_refl eq_refl). fold n in Hl.
  eexists _, _, _. split; [reflexivity|]. split; [reflexivity|].
  split; [reflexivity|].
  unfold Float64.np.column0, Float64.np.column1, Float64.np.column2.
  rewrite !length_map, f64_grid_nodes_length, !length_map, !length_seq.
  rewrite !list_lookup_fmap, Hl. split_and!; try done; lia.
Qed.

Lemma UG_x_y_z_are_columns_of_points_witness :
  let g := Float64.vtkImageData.mk (2, 3, 2)%Z (10, 35, 50) (0.5, 1, 5)
             no_attached in
  exists xs ys zs,
    Float64.UniformGrid.x g = Ok xs /\ Float64.UniformGrid.y g = Ok ys
    /\ Float64.UniformGrid.z g = Ok zs
    /\ Z.of_nat (length xs) = (2 * 3 * 2)%Z
    /\ Z.of_nat (length ys) = (2 * 3 * 2)%Z
    /\ Z.of_nat (length zs) = (2 * 3 * 2)%Z
    /\ xs !! (1 + Z.to_nat 2 * (0 + Z.to_nat 3 * 1))%nat
       = Some (Float64.running_sum 0.5 1 + 10)
    /\ ys !! (1 + Z.to_nat 2 * (0 + Z.to_nat 3 * 1))%nat
       = Some (Float64.running_sum 1 0 + 35)
    /\ zs !! (1 + Z.to_nat 2 * (0 + Z.to_nat 3 * 1))%nat
       = Some (Float64.running_sum 5 1 + 50).
Proof.
  apply (UG_x_y_z_are_columns_of_points 2 3 2 10 35 50 0.5 1 5 no_attached
           1 0 1); lia.
Defined.

End Float64Claims.
